(** * Flight route search: the scraping pipeline of
    [flight_ticket_mcp_server/tools/flight_search_tools.py]

    A shallow embedding of the record extractor, the deduplicator, the
    incremental (scroll) loader, the final pass and the top-level
    [searchFlightRoutes], followed by the properties of the design document
    that concern them.

    Python values are modelled as follows.
    - [str] is a list of Unicode code points ([pystr]); literals are written
      in UTF-8 and decoded by [py].
    - A [flight_info] dictionary has a fixed set of keys, so it is a record
      of optional fields; [d.get(k)] is the field, [k in d] is [is_Some].
    - The set of keys already seen is a [gset pystr], the collected flights
      are a list (order matters).
    - Calls that may raise return [exc A]; [try ... except Exception] is
      [try_except].
    - The browser is an oracle: a [page] says what each query of the run
      answers (elements found, texts, heights) or that it raises. *)

From Stdlib Require Import String Ascii ZArith NArith Lia DecimalString.
From stdpp Require Import base option list gmap.

Local Open Scope N_scope.

(** ** Python strings *)

(** A Python [str]: its code points. *)
Definition pystr := list N.

(** UTF-8 decoding of a literal: [pending] continuation bytes are still
    expected for the code point accumulated in [acc]. *)
Fixpoint utf8_decode (bytes : list N) (acc : N) (pending : nat) : pystr :=
  match bytes with
  | [] => []
  | b :: rest =>
      match pending with
      | S (S k) => utf8_decode rest (acc * 64 + N.land b 63) (S k)
      | S O => (acc * 64 + N.land b 63) :: utf8_decode rest 0 O
      | O =>
          if b <? 128 then b :: utf8_decode rest 0 O
          else if b <? 224 then utf8_decode rest (N.land b 31) 1
          else if b <? 240 then utf8_decode rest (N.land b 15) 2
          else utf8_decode rest (N.land b 7) 3
      end
  end.

Definition py (s : string) : pystr :=
  utf8_decode (map N_of_ascii (list_ascii_of_string s)) 0 O.
Arguments py : simpl never.

(** Truthiness of a [str]: non-empty. *)
Definition truthy (s : pystr) : bool :=
  match s with [] => false | _ :: _ => true end.

Definition pystr_eqb (a b : pystr) : bool := bool_decide (a = b).

(** [old] is a prefix of [s]. *)
Fixpoint starts_with (old s : pystr) : bool :=
  match old, s with
  | [], _ => true
  | _ :: _, [] => false
  | a :: old', b :: s' => (a =? b) && starts_with old' s'
  end.

(** [old in s] for a non-empty literal [old]. *)
Fixpoint contains (old s : pystr) : bool :=
  starts_with old s ||
  match s with
  | [] => false
  | _ :: s' => contains old s'
  end.

(** [s.replace(old, new)] for a non-empty literal [old]: occurrences are
    found left to right and do not overlap; [skip] counts the characters of
    the occurrence just replaced that are still to be passed over. *)
Fixpoint replace_from (old new s : pystr) (skip : nat) : pystr :=
  match s with
  | [] => []
  | c :: s' =>
      match skip with
      | S k => replace_from old new s' k
      | O =>
          if starts_with old s
          then new ++ replace_from old new s' (length old - 1)
          else c :: replace_from old new s' O
      end
  end.

Definition replace (old new s : pystr) : pystr := replace_from old new s O.

(** ** The part of the Unicode database the code consults

    [re]'s [\d] is [str.isdecimal] on one character, [str.strip] removes
    [str.isspace] characters, [str.isdigit] accepts decimal digits and the
    digit-only characters (superscripts, circled digits, ...).  The tables
    are those of Unicode 14.0, as (first code point, length) blocks. *)

Definition in_block (c : N) (b : N * N) : bool :=
  (fst b <=? c) && (c <? fst b + snd b).

Definition decimal_blocks : list (N * N) :=
  [ (48, 10); (1632, 10); (1776, 10); (1984, 10); (2406, 10); (2534, 10);
    (2662, 10); (2790, 10); (2918, 10); (3046, 10); (3174, 10); (3302, 10);
    (3430, 10); (3558, 10); (3664, 10); (3792, 10); (3872, 10); (4160, 10);
    (4240, 10); (6112, 10); (6160, 10); (6470, 10); (6608, 10); (6784, 10);
    (6800, 10); (6992, 10); (7088, 10); (7232, 10); (7248, 10); (42528, 10);
    (43216, 10); (43264, 10); (43472, 10); (43504, 10); (43600, 10);
    (44016, 10); (65296, 10); (66720, 10); (68912, 10); (69734, 10);
    (69872, 10); (69942, 10); (70096, 10); (70384, 10); (70736, 10);
    (70864, 10); (71248, 10); (71360, 10); (71472, 10); (71904, 10);
    (72016, 10); (72784, 10); (73040, 10); (73120, 10); (92768, 10);
    (92864, 10); (93008, 10); (120782, 50); (123200, 10); (123632, 10);
    (125264, 10); (130032, 10) ].

Definition digit_only_blocks : list (N * N) :=
  [ (178, 2); (185, 1); (4969, 9); (6618, 1); (8304, 1); (8308, 6);
    (8320, 10); (9312, 9); (9332, 9); (9352, 9); (9450, 1); (9461, 9);
    (9471, 1); (10102, 9); (10112, 9); (10122, 9); (68160, 4); (69216, 9);
    (69714, 9); (127232, 11) ].

Definition space_blocks : list (N * N) :=
  [ (9, 5); (28, 5); (133, 1); (160, 1); (5760, 1); (8192, 11); (8232, 2);
    (8239, 1); (8287, 1); (12288, 1) ].

(** The decimal value of a character of category Nd. *)
Definition to_decimal (c : N) : option N :=
  match List.find (in_block c) decimal_blocks with
  | Some b => Some ((c - fst b) mod 10)
  | None => None
  end.

Definition isdecimal_char (c : N) : bool :=
  match to_decimal c with Some _ => true | None => false end.

Definition isdigit_char (c : N) : bool :=
  isdecimal_char c || existsb (in_block c) digit_only_blocks.

Definition isspace_char (c : N) : bool := existsb (in_block c) space_blocks.

(** [s.isdigit()]: every character is a digit and there is at least one. *)
Definition isdigit (s : pystr) : bool := truthy s && forallb isdigit_char s.

Fixpoint lstrip (s : pystr) : pystr :=
  match s with
  | [] => []
  | c :: s' => if isspace_char c then lstrip s' else s
  end.

(** [s.strip()]. *)
Definition strip (s : pystr) : pystr := reverse (lstrip (reverse (lstrip s))).

(** [str(n)] of a length, a position or a count. *)
Definition str_of_nat (n : nat) : pystr :=
  py (NilZero.string_of_uint (Nat.to_uint n)).

(** The number of decimal characters a text begins with. *)
Fixpoint leading_decimals (s : pystr) : nat :=
  match s with
  | [] => O
  | c :: s' => if isdecimal_char c then S (leading_decimals s') else O
  end.

(** The value of a run of decimal characters read in base ten. *)
Fixpoint decimal_value (s : pystr) (acc : N) : option N :=
  match s with
  | [] => Some acc
  | c :: s' =>
      match to_decimal c with
      | Some d => decimal_value s' (acc * 10 + d)
      | None => None
      end
  end.


(** ** The regular expressions of the extractor

    Both patterns are a sequence of quantified character classes, so a
    pattern is a list of [atom]s.  Quantifiers are greedy and backtrack. *)

Record atom := Atom {
  cls : N -> bool;          (* the character class *)
  rmin : nat;               (* least number of repetitions *)
  rmax : option nat         (* greatest number, [None] for unbounded *)
}.

(** The longest run of class [p] at the head of [s], cut at [limit]. *)
Fixpoint greedy_run (p : N -> bool) (limit : option nat) (s : pystr) : nat :=
  match limit, s with
  | Some O, _ => O
  | _, [] => O
  | _, c :: s' =>
      if p c then S (greedy_run p (Nat.pred <$> limit) s') else O
  end.

(** An atom that took [k] characters gives them back one at a time, down
    to [lo], until the rest of the pattern matches what follows. *)
Fixpoint give_back (rest_match : pystr -> option nat) (lo : nat) (s : pystr)
    (k : nat) : option nat :=
  if (k <? lo)%nat then None
  else
    match rest_match (drop k s) with
    | Some n => Some (k + n)%nat
    | None =>
        match k with
        | O => None
        | S k' => give_back rest_match lo s k'
        end
    end.

(** [re.match]: the length of the match of [r] at the head of [s].  An atom
    first takes its longest run. *)
Fixpoint match_here (r : list atom) (s : pystr) {struct r} : option nat :=
  match r with
  | [] => Some O
  | a :: r' =>
      give_back (match_here r') (rmin a) s (greedy_run (cls a) (rmax a) s)
  end.

(** [re.search(r, s).group(1)] for a pattern that is one group: the
    leftmost match. *)
Fixpoint re_search (r : list atom) (s : pystr) : option pystr :=
  match match_here r s with
  | Some n => Some (take n s)
  | None =>
      match s with
      | [] => None
      | _ :: s' => re_search r s'
      end
  end.

Definition is_upper (c : N) : bool := (65 <=? c) && (c <=? 90).

(** [r'([A-Z]{2}\d{3,4})'] *)
Definition flight_number_re : list atom :=
  [ Atom is_upper 2 (Some 2%nat); Atom isdecimal_char 3 (Some 4%nat) ].

(** [r'(\d+)'] *)
Definition digits_re : list atom := [ Atom isdecimal_char 1 None ].

(** ** Exceptions *)

(** The outcome of a call that may raise; [Raise] carries [str(e)]. *)
Inductive exc (A : Type) : Type :=
  | Ok (a : A)
  | Raise (message : pystr).
Arguments Ok {A} a.
Arguments Raise {A} message.

(** Sequencing: an exception leaves the rest of the block unexecuted. *)
#[global] Instance exc_bind : MBind exc := fun A B f m =>
  match m with
  | Ok a => f a
  | Raise e => Raise e
  end.

(** [try: body  except Exception as e: handler(e)] *)
Definition try_except {A : Type} (body : exc A) (handler : pystr -> exc A) : exc A :=
  match body with
  | Ok a => Ok a
  | Raise e => handler e
  end.

(** ** The page as the extractor sees it *)

(** A found element: what reading its text and its [id] attribute gives. *)
Record element := Element {
  text : exc pystr;
  attr_id : exc (option pystr)
}.

(** The outcome of [parent.ele(selector)]. *)
Inductive lookup : Type :=
  | found (e : element)
  | absent                   (* [None] or the [NoneElement] placeholder *)
  | lookup_raises (message : pystr).

(** One flight container: the outcome of each selector the extractor tries
    on it, and of reading the container's own text. *)
Record container := Container {
  airline_name_span : lookup;      (* css:.airline-name span *)
  plane_No : lookup;               (* css:.plane-No *)
  airlineName_prefixed : lookup;   (* css:[id^=airlineName] *)
  comfort_prefixed : lookup;       (* css:[id^=comfort-] *)
  depart_box_time : lookup;        (* css:.depart-box .time *)
  depart_box_name : lookup;        (* css:.depart-box .name *)
  depart_box_terminal : lookup;    (* css:.depart-box .terminal *)
  arrive_box_time : lookup;        (* css:.arrive-box .time *)
  arrive_box_name : lookup;        (* css:.arrive-box .name *)
  arrive_box_terminal : lookup;    (* css:.arrive-box .terminal *)
  price_span : lookup;             (* css:.price *)
  container_text : exc (option pystr)
}.

(** [_safe_ele]: the element, or [None] when it is missing or the lookup
    raises. *)
Definition _safe_ele (l : lookup) : option element :=
  match try_except
          (match l with
           | found e => Ok (Some e)
           | absent => Ok None
           | lookup_raises m => Raise m
           end)
          (fun _ => Ok None)
  with
  | Ok o => o
  | Raise _ => None
  end.

(** ** Flight records *)

(** The dictionary built by the extractor.  Keys, in order: 序号, 航空公司,
    航班号, 出发时间, 出发机场, 出发航站楼, 到达时间, 到达机场, 到达航站楼,
    价格. *)
Record flight_info := FlightInfo {
  index : nat;
  airline : option pystr;
  flightNumber : option pystr;
  departureTime : option pystr;
  departureAirport : option pystr;
  departureTerminal : option pystr;
  arrivalTime : option pystr;
  arrivalAirport : option pystr;
  arrivalTerminal : option pystr;
  price : option pystr
}.

#[global] Instance exc_eq_dec {A} `{EqDecision A} : EqDecision (exc A).
Proof. solve_decision. Defined.
#[global] Instance flight_info_eq_dec : EqDecision flight_info.
Proof. solve_decision. Defined.

(** [d.get(k) or ''] *)
Definition get_or_empty (v : option pystr) : pystr := default [] v.

(** ** The record extractor *)

(** [ele.text.strip()] of an optional element: the field is left unset
    when the element was not found. *)
Definition stripped_text (l : lookup) : exc (option pystr) :=
  match _safe_ele l with
  | Some e => t ← text e; Ok (Some (strip t))
  | None => Ok None
  end.

(** The [id] of an optional element, for the list of candidates. *)
Definition id_candidate (l : lookup) : exc (list pystr) :=
  match _safe_ele l with
  | Some e => i ← attr_id e; Ok [get_or_empty i]
  | None => Ok []
  end.

(** The first candidate the pattern is found in. *)
Fixpoint first_match (r : list atom) (candidates : list pystr) : option pystr :=
  match candidates with
  | [] => None
  | c :: rest =>
      match re_search r c with
      | Some m => Some m
      | None => first_match r rest
      end
  end.

(** Lines 726-759: the flight number, from the [.plane-No] text, else from
    the [id] attributes, else from the text of the whole container. *)
Definition extract_flight_number (c : container) : exc (option pystr) :=
  plane_text ←
    match _safe_ele (plane_No c) with
    | Some e => t ← text e; Ok (strip (replace [160] [32] t))
    | None => Ok []
    end;
  let from_plane_text :=
    if truthy plane_text then re_search flight_number_re plane_text else None in
  match from_plane_text with
  | Some m => Ok (Some m)
  | None =>
      ids1 ← id_candidate (airlineName_prefixed c);
      ids2 ← id_candidate (comfort_prefixed c);
      match first_match flight_number_re (ids1 ++ ids2) with
      | Some m => Ok (Some m)
      | None =>
          t ← container_text c;
          Ok (re_search flight_number_re (get_or_empty t))
      end
  end.

(** Lines 801-807, on the stripped text of the [.price] element: a text
    with the currency sign is kept, otherwise the first run of digits is
    prefixed with the sign; without digits the field stays unset. *)
Definition normalize_price (price_text : pystr) : option pystr :=
  if contains (py "¥") price_text then Some price_text
  else
    match re_search digits_re price_text with
    | Some digits => Some (py "¥" ++ digits)
    | None => None
    end.

Definition extract_price (c : container) : exc (option pystr) :=
  match _safe_ele (price_span c) with
  | Some e => t ← text e; Ok (normalize_price (strip t))
  | None => Ok None
  end.

(** Lines 779-784: a next-day marker is set off by a space. *)
Definition normalize_arrival (arrival_text : pystr) : pystr :=
  if contains (py "+1天") arrival_text
  then replace (py "+1天") (py " +1天") arrival_text
  else arrival_text.

Definition extract_arrival_time (c : container) : exc (option pystr) :=
  match _safe_ele (arrive_box_time c) with
  | Some e => t ← text e; Ok (Some (normalize_arrival (strip t)))
  | None => Ok None
  end.

(** The body of the [try] block of [_parse_flight_container]: the fields
    in the order the code fills them in. *)
Definition extract_fields (c : container) (index : nat) : exc flight_info :=
  airline ← stripped_text (airline_name_span c);
  flightNumber ← extract_flight_number c;
  departureTime ← stripped_text (depart_box_time c);
  departureAirport ← stripped_text (depart_box_name c);
  departureTerminal ← stripped_text (depart_box_terminal c);
  arrivalTime ← extract_arrival_time c;
  arrivalAirport ← stripped_text (arrive_box_name c);
  arrivalTerminal ← stripped_text (arrive_box_terminal c);
  price ← extract_price c;
  Ok (FlightInfo index airline flightNumber departureTime departureAirport
        departureTerminal arrivalTime arrivalAirport arrivalTerminal price).

(** [any(key in flight_info for key in ['航班号', '出发时间', '价格'])] *)
Definition has_required_field (r : flight_info) : bool :=
  bool_decide (is_Some (flightNumber r))
  || bool_decide (is_Some (departureTime r))
  || bool_decide (is_Some (price r)).

(** [_parse_flight_container]: the record, or [None] when no required
    field was found or when reading an element raised. *)
Definition _parse_flight_container (c : container) (index : nat)
  : exc (option flight_info) :=
  try_except
    (r ← extract_fields c index;
     if has_required_field r then Ok (Some r) else Ok None)
    (fun _ => Ok None).

(** ** The deduplicator *)

(** ["|".join(parts)] *)
Fixpoint join_bar (parts : list pystr) : pystr :=
  match parts with
  | [] => []
  | [p] => p
  | p :: rest => p ++ 124 :: join_bar rest
  end.

Fixpoint lstrip_bar (s : pystr) : pystr :=
  match s with
  | [] => []
  | c :: s' => if c =? 124 then lstrip_bar s' else s
  end.

(** [s.strip("|")] *)
Definition strip_bar (s : pystr) : pystr :=
  reverse (lstrip_bar (reverse (lstrip_bar s))).

(** [_make_flight_key] *)
Definition _make_flight_key (info : flight_info) : pystr :=
  let parts :=
    [ get_or_empty (flightNumber info);
      get_or_empty (departureTime info);
      get_or_empty (arrivalTime info);
      get_or_empty (departureAirport info);
      get_or_empty (arrivalAirport info);
      get_or_empty (airline info) ] in
  strip_bar (join_bar parts).

(** The cache the scroll rounds fill: [self._scrolled_flights] and
    [self._scrolled_flight_keys]. *)
Record collector := Collector {
  _scrolled_flights : list flight_info;
  _scrolled_flight_keys : gset pystr
}.

Definition empty_collector : collector := Collector [] ∅.

(** Lines 469-475: one record offered during a scroll round.  The result
    says whether it was new. *)
Definition collect_record (st : collector) (info : flight_info)
  : collector * bool :=
  let flight_key := _make_flight_key info in
  if negb (truthy flight_key) then (st, false)
  else if bool_decide (flight_key ∈ _scrolled_flight_keys st) then (st, false)
  else
    (Collector (_scrolled_flights st ++ [info])
               ({[flight_key]} ∪ _scrolled_flight_keys st),
     true).

(** The two queries for flight items: the main list first, any flight item
    when that finds nothing. *)
Record items_query := ItemsQuery {
  in_flight_list : exc (list container);   (* css:.flight-list .flight-item *)
  any_flight_item : exc (list container)   (* css:.flight-item *)
}.

Definition query_items (q : items_query) : exc (list container) :=
  flight_elements ← in_flight_list q;
  match flight_elements with
  | [] => any_flight_item q
  | _ :: _ => Ok flight_elements
  end.

(** The loop of [_collect_visible_flights] from position [i] on; a
    container whose handling raises is passed over. *)
Fixpoint collect_containers (cs : list container) (i : nat)
    (st : collector) (new_count : nat) : collector * nat :=
  match cs with
  | [] => (st, new_count)
  | container :: rest =>
      match _parse_flight_container container (i + 1) with
      | Ok (Some info) =>
          let '(st', is_new) := collect_record st info in
          collect_containers rest (S i) st'
            (if is_new then S new_count else new_count)
      | Ok None | Raise _ => collect_containers rest (S i) st new_count
      end
  end.

(** [_collect_visible_flights]: the cache after the round and the number of
    new records; 0 when the query raises. *)
Definition _collect_visible_flights (q : items_query) (st : collector)
  : collector * nat :=
  match query_items q with
  | Ok flight_elements => collect_containers flight_elements 0 st 0
  | Raise _ => (st, O)
  end.

(** ** The incremental loader *)

(** What one scroll round observes of the page. *)
Record round_obs := RoundObs {
  flight_items : items_query;     (* the round's own query, for the count *)
  scrollHeight : Z;               (* [current_height]; 0 when unavailable *)
  visible_items : items_query     (* the query of [_collect_visible_flights] *)
}.

(** What the loader prints about a round it began: the number of flight
    items found ([None] when the query raised and ended the loop), the
    number of new records and the size of the cache at the end of the
    round. *)
Record round_report := RoundReport {
  round_no : nat;
  current_count : option nat;
  new_in_round : nat;
  collected : nat                 (* [len(self._scrolled_flights)] *)
}.

Definition max_rounds : nat := 5.
Definition stable_rounds : nat := 3.
Definition flight_cap : nat := 30.

(** The [for] loop of [_intelligent_scroll_for_content] over the remaining
    round numbers.  The scrolling itself, the settle sleep and the wait for
    loading indicators swallow their own failures; the round's query for
    flight items does not, and an exception there leaves the loop. *)
Fixpoint scroll_rounds (rounds : list nat) (page : nat -> round_obs)
    (same_rounds prev_count : nat) (prev_height : Z) (st : collector)
  : collector * list round_report :=
  match rounds with
  | [] => (st, [])
  | i :: rest =>
      match query_items (flight_items (page i)) with
      | Raise _ =>
          (st, [RoundReport i None 0 (length (_scrolled_flights st))])
      | Ok flight_elements =>
          let current_count := length flight_elements in
          let current_height := scrollHeight (page i) in
          let '(st', new_in_round) :=
            _collect_visible_flights (visible_items (page i)) st in
          let report :=
            RoundReport i (Some current_count) new_in_round
              (length (_scrolled_flights st')) in
          if (flight_cap <=? length (_scrolled_flights st'))%nat
          then (st', [report])
          else
            let '(same_rounds', prev_count', prev_height') :=
              if (new_in_round =? 0)%nat && (current_height =? prev_height)%Z
                 && (current_count <=? prev_count)%nat
              then (S same_rounds, prev_count, prev_height)
              else (O, Nat.max prev_count current_count, current_height) in
            if (stable_rounds <=? same_rounds')%nat
            then (st', [report])
            else
              let '(st'', reports) :=
                scroll_rounds rest page same_rounds' prev_count' prev_height' st' in
              (st'', report :: reports)
      end
  end.

(** [_intelligent_scroll_for_content]; the outer handler absorbs whatever
    the loop raises, and the scroll back to the top changes no record. *)
Definition _intelligent_scroll_for_content (page : nat -> round_obs)
    (st : collector) : collector * list round_report :=
  scroll_rounds (seq 1 max_rounds) page 0 0 0%Z st.

(** ** The final pass *)

(** What [_parse_flights] observes: the [.body-wrapper] lookup and the
    flight items under it. *)
Record final_obs := FinalObs {
  body_wrapper : exc bool;        (* found or not; the lookup may raise *)
  wrapped_items : items_query
}.

Definition unknown : pystr := py "未知".

(** [flight_info.get('航班号') and flight_info.get('航班号') != '未知'] *)
Definition has_flight_number (r : flight_info) : bool :=
  truthy (get_or_empty (flightNumber r))
  && negb (pystr_eqb (get_or_empty (flightNumber r)) unknown).

(** Lines 636-647: one record offered by the final pass. *)
Definition final_record (flights : list flight_info) (keys : gset pystr)
    (info : flight_info) : list flight_info * gset pystr :=
  if has_flight_number info then
    let flight_key := _make_flight_key info in
    if truthy flight_key then
      if bool_decide (flight_key ∈ keys) then (flights, keys)
      else (flights ++ [info], {[flight_key]} ∪ keys)
    else (flights ++ [info], keys)
  else (flights, keys).

Fixpoint final_containers (cs : list container) (i : nat)
    (flights : list flight_info) (keys : gset pystr)
  : list flight_info * gset pystr :=
  match cs with
  | [] => (flights, keys)
  | container :: rest =>
      match _parse_flight_container container (i + 1) with
      | Ok (Some info) =>
          let '(flights', keys') := final_record flights keys info in
          final_containers rest (S i) flights' keys'
      | Ok None | Raise _ => final_containers rest (S i) flights keys
      end
  end.

Definition set_index (idx : nat) (r : flight_info) : flight_info :=
  FlightInfo idx (airline r) (flightNumber r) (departureTime r)
    (departureAirport r) (departureTerminal r) (arrivalTime r)
    (arrivalAirport r) (arrivalTerminal r) (price r).

(** [for idx, item in enumerate(flights, 1): item['序号'] = idx] *)
Definition renumber (flights : list flight_info) : list flight_info :=
  imap (fun i r => set_index (S i) r) flights.

(** [_parse_flights]: the flights of the scroll rounds, then the records
    of the final pass that carry a flight number and a key not yet seen.
    When the wrapper or the items are missing, or a query raises, the
    flights gathered so far are returned as they are. *)
Definition _parse_flights (obs : final_obs) (st : collector) : list flight_info :=
  let flights := _scrolled_flights st in
  match body_wrapper obs with
  | Raise _ | Ok false => flights
  | Ok true =>
      match query_items (wrapped_items obs) with
      | Raise _ | Ok [] => flights
      | Ok flight_containers =>
          renumber
            (fst (final_containers flight_containers 0 flights
                    (_scrolled_flight_keys st)))
      end
  end.

(** ** Dates *)

Record date := Date { year : N; month : N; day : N }.

Definition date_ltb (a b : date) : bool :=
  (year a <? year b)
  || ((year a =? year b)
      && ((month a <? month b)
          || ((month a =? month b) && (day a <? day b)))).

Definition is_leap (y : N) : bool :=
  (y mod 4 =? 0) && (negb (y mod 100 =? 0) || (y mod 400 =? 0)).

Definition days_in_month (y m : N) : N :=
  if m =? 2 then (if is_leap y then 29 else 28)
  else if (m =? 4) || (m =? 6) || (m =? 9) || (m =? 11) then 30
  else 31.

Definition between (lo hi c : N) : bool := (lo <=? c) && (c <=? hi).

(** The month group of the format's pattern, [1[0-2]|0[1-9]|[1-9]]: the
    alternatives that match at the head of [s], in order, each with its
    value and the text left. *)
Definition month_alternatives (s : pystr) : list (N * pystr) :=
  match s with
  | [] => []
  | a :: s1 =>
      match s1 with
      | b :: s2 =>
          (if (a =? 49) && between 48 50 b then [(10 + (b - 48), s2)] else [])
          ++ (if (a =? 48) && between 49 57 b then [(b - 48, s2)] else [])
      | [] => []
      end
      ++ (if between 49 57 a then [(a - 48, s1)] else [])
  end.

(** The day group, [3[0-1]|[1-2]\d|0[1-9]|[1-9]| [1-9]]: the pattern ends
    with it, so the first alternative that matches is taken. *)
Definition day_group (s : pystr) : option (N * pystr) :=
  let two :=
    match s with
    | a :: b :: rest =>
        if (a =? 51) && between 48 49 b then Some (30 + (b - 48), rest)
        else if between 49 50 a && isdecimal_char b
        then Some (10 * (a - 48) + default 0 (to_decimal b), rest)
        else if (a =? 48) && between 49 57 b then Some (b - 48, rest)
        else None
    | _ => None
    end in
  match two with
  | Some r => Some r
  | None =>
      match s with
      | a :: rest =>
          if between 49 57 a then Some (a - 48, rest)
          else
            match rest with
            | b :: rest' =>
                if (a =? 32) && between 49 57 b then Some (b - 48, rest')
                else None
            | [] => None
            end
      | [] => None
      end
  end.

(** The first month alternative after which a hyphen and a day follow. *)
Fixpoint month_then_day (alts : list (N * pystr)) : option (N * N * pystr) :=
  match alts with
  | [] => None
  | (m, rest) :: alts' =>
      match rest with
      | 45 :: after_hyphen =>
          match day_group after_hyphen with
          | Some (d, remaining) => Some (m, d, remaining)
          | None => month_then_day alts'
          end
      | _ => month_then_day alts'
      end
  end.

(** [datetime.strptime(s, "%Y-%m-%d").date()]; [None] stands for the
    [ValueError] of a text that does not match, has characters left over,
    or names no day of the calendar. *)
Definition strptime_ymd (s : pystr) : option date :=
  match s with
  | y1 :: y2 :: y3 :: y4 :: 45 :: after_year =>
      match decimal_value [y1; y2; y3; y4] 0 with
      | Some y =>
          match month_then_day (month_alternatives after_year) with
          | Some (m, d, []) =>
              if (1 <=? y) && (d <=? days_in_month y m)
              then Some (Date y m d) else None
          | _ => None
          end
      | None => None
      end
  | _ => None
  end.

(** ** The browser session and the world around a search *)

(** What the page answers during one search. *)
Record page := Page {
  page_get : exc unit;                  (* [self.page.get(search_url)] *)
  wait_for_page_ready : exc unit;       (* polling [document.readyState] *)
  wait_for_flight_content : exc unit;   (* waiting for the list elements *)
  scroll_round : nat -> round_obs;
  final_pass : final_obs;
  page_quit : exc unit                  (* [self.page.quit()] *)
}.

(** What lies outside the module: the optional imports, the airport
    lookup, the clock and the browser. *)
Record world := World {
  DRISSION_PAGE_AVAILABLE : bool;
  cities_dict_imported : bool;
  get_airport_code : pystr -> option pystr;
  get_city_name : pystr -> option pystr;
  today : date;                         (* [datetime.now().date()] *)
  new_session : exc page                (* [FlightRouteSearcher(headless)] *)
}.

(** Truthiness of an optional string. *)
Definition truthy_opt (o : option pystr) : bool := truthy (get_or_empty o).

(** The merge of the scroll rounds and the final pass. *)
Definition merged_flights (page : page) : list flight_info :=
  _parse_flights (final_pass page)
    (fst (_intelligent_scroll_for_content (scroll_round page) empty_collector)).

(** [FlightRouteSearcher.search_flights].  The stealth script and the
    network logger swallow their own failures and touch no record. *)
Definition search_flights (w : world) (page : page)
    (departure_city destination_city departure_date : pystr)
  : exc (list flight_info) :=
  if negb (truthy_opt (get_airport_code w departure_city))
     || negb (truthy_opt (get_airport_code w destination_city))
  then Ok []
  else
    match strptime_ymd departure_date with
    | None => Ok []
    | Some _ =>
        try_except
          (_ ← page_get page;
           _ ← wait_for_page_ready page;
           _ ← wait_for_flight_content page;
           Ok (merged_flights page))
          (fun _ => Ok [])
    end.

(** ** The result aggregator and the top-level operation *)

Inductive error_code :=
  | INVALID_PARAMS
  | DRISSION_PAGE_NOT_AVAILABLE
  | CITIES_DICT_NOT_AVAILABLE
  | INVALID_DATE_FORMAT
  | PAST_DATE
  | INVALID_DEPARTURE_CITY
  | INVALID_DESTINATION_CITY
  | SEARCH_FAILED.

Record price_stats := PriceStats {
  min_price : N;
  max_price : N;
  avg_price : N
}.

(** The success envelope; the rendered text and the time stamp are left
    out, they are computed from these fields and the clock. *)
Record search_result := SearchResult {
  departure_city : pystr;
  destination_city : pystr;
  departure_date : pystr;
  departure_airport : option pystr;
  destination_airport : option pystr;
  flight_count : nat;
  flights : list flight_info;
  price_statistics : option price_stats;
  airline_statistics : option (list (pystr * nat))
}.

Inductive envelope :=
  | error (code : error_code) (message : pystr)
  | success (result : search_result).

(** [flight['价格'].replace('¥', '').replace('起', '')] *)
Definition price_digits (p : pystr) : pystr :=
  replace (py "起") [] (replace (py "¥") [] p).

(** The interpreter's bound on the digits of a text given to [int]
    ([sys.get_int_max_str_digits()], 4300 unless it was set otherwise). *)
Definition int_max_str_digits : N := 4300.

(** [int(s)] for a text that passed [isdigit].  The decimal digits the
    text begins with are counted first, and more of them than the bound
    raise [ValueError]; then a digit that is not a decimal digit raises
    [ValueError], the message showing the first 200 characters of the
    quoted text. *)
Definition py_int (s : pystr) : exc N :=
  if int_max_str_digits <? N.of_nat (leading_decimals s) then
    Raise (py "Exceeds the limit ("
             ++ str_of_nat (N.to_nat int_max_str_digits)
             ++ py " digits) for integer string conversion: value has "
             ++ str_of_nat (leading_decimals s)
             ++ py " digits; use sys.set_int_max_str_digits() to increase the limit")
  else
    match decimal_value s 0 with
    | Some n => Ok n
    | None =>
        Raise (py "invalid literal for int() with base 10: "
                 ++ take 200 (py "'" ++ s ++ py "'"))
    end.

(** The price a flight adds to [prices], if any. *)
Definition counted_price (flight : flight_info) : exc (option N) :=
  match price flight with
  | Some p =>
      if negb (pystr_eqb p unknown) then
        let price_str := price_digits p in
        if isdigit price_str then n ← py_int price_str; Ok (Some n)
        else Ok None
      else Ok None
  | None => Ok None
  end.

(** The [prices] list after the loop over the flights. *)
Fixpoint collect_prices (flights : list flight_info) (prices : list N)
  : exc (list N) :=
  match flights with
  | [] => Ok prices
  | flight :: rest =>
      o ← counted_price flight;
      collect_prices rest (match o with Some n => prices ++ [n] | None => prices end)
  end.

Definition sum (l : list N) : N := foldr N.add 0 l.
Definition minimum (x : N) (l : list N) : N := foldr N.min x l.
Definition maximum (x : N) (l : list N) : N := foldr N.max x l.

(** [min(prices)], [max(prices)] and [sum(prices) // len(prices)] *)
Definition price_stats_of (prices : list N) : option price_stats :=
  match prices with
  | [] => None
  | x :: rest =>
      Some (PriceStats (minimum x rest) (maximum x rest)
              (sum prices / N.of_nat (length prices)))
  end.

(** [airlines[airline] = airlines.get(airline, 0) + 1], the dictionary in
    insertion order. *)
Fixpoint count_airline (name : pystr) (airlines : list (pystr * nat))
  : list (pystr * nat) :=
  match airlines with
  | [] => [(name, 1%nat)]
  | (a, n) :: rest =>
      if pystr_eqb a name then (a, S n) :: rest
      else (a, n) :: count_airline name rest
  end.

Definition airline_counts (flights : list flight_info) : list (pystr * nat) :=
  fold_left (fun airlines flight => count_airline (default unknown (airline flight)) airlines)
    flights [].

Inductive browser_event := session_start | session_close.

(** The statistics block of lines 934-957. *)
Definition statistics (flights : list flight_info)
  : exc (option price_stats * option (list (pystr * nat))) :=
  match flights with
  | [] => Ok (None, None)
  | _ :: _ =>
      prices ← collect_prices flights [];
      Ok (price_stats_of prices, Some (airline_counts flights))
  end.

(** The body of the [try] block of [searchFlightRoutes], with the browser
    sessions it started and closed. *)
Definition search_body (w : world)
    (departure_city destination_city departure_date : pystr)
  : exc envelope * list browser_event :=
  if negb (truthy departure_city) || negb (truthy destination_city)
     || negb (truthy departure_date)
  then (Ok (error INVALID_PARAMS (py "出发地、目的地和出发日期都不能为空")), [])
  else if negb (DRISSION_PAGE_AVAILABLE w)
  then (Ok (error DRISSION_PAGE_NOT_AVAILABLE
              (py "DrissionPage库未安装，无法进行航班搜索")), [])
  else if negb (cities_dict_imported w)
  then (Ok (error CITIES_DICT_NOT_AVAILABLE
              (py "城市字典未找到，无法进行航班搜索")), [])
  else
    match strptime_ymd departure_date with
    | None =>
        (Ok (error INVALID_DATE_FORMAT
               (py "日期格式不正确，请使用YYYY-MM-DD格式")), [])
    | Some flight_date =>
        if date_ltb flight_date (today w)
        then (Ok (error PAST_DATE (py "不能查询过去的日期")), [])
        else if negb (truthy_opt (get_airport_code w departure_city))
        then (Ok (error INVALID_DEPARTURE_CITY
                    (py "无效的出发地: " ++ departure_city)), [])
        else if negb (truthy_opt (get_airport_code w destination_city))
        then (Ok (error INVALID_DESTINATION_CITY
                    (py "无效的目的地: " ++ destination_city)), [])
        else
          match new_session w with
          | Raise e => (Raise e, [session_start])
          | Ok searcher =>
              (* try: search_flights  finally: close *)
              let searched :=
                search_flights w searcher departure_city destination_city
                  departure_date in
              (closed ← page_quit searcher;
               flights ← searched;
               stats ← statistics flights;
               Ok (success
                     (SearchResult departure_city destination_city
                        departure_date
                        (get_city_name w departure_city)
                        (get_city_name w destination_city)
                        (length flights) flights (fst stats) (snd stats))),
               [session_start; session_close])
          end
    end.

(** [searchFlightRoutes]: whatever the body raises becomes the catch-all
    error with the message of the exception. *)
Definition searchFlightRoutes (w : world)
    (departure_city destination_city departure_date : pystr)
  : exc envelope * list browser_event :=
  let '(outcome, log) :=
    search_body w departure_city destination_city departure_date in
  (try_except outcome
     (fun e => Ok (error SEARCH_FAILED (py "查询航班路线失败: " ++ e))),
   log).

(** * Notions used to state the properties, and example pages *)

(** ** Strings and patterns *)

(** What a pattern denotes: one run of characters per atom. *)
Inductive matches : list atom -> pystr -> Prop :=
  | matches_nil : matches [] []
  | matches_cons a r run rest :
      forallb (cls a) run = true ->
      (rmin a <= length run)%nat ->
      (forall hi, rmax a = Some hi -> (length run <= hi)%nat) ->
      matches r rest ->
      matches (a :: r) (run ++ rest).

(** A carrier code of two capital letters followed by three or four
    digits. *)
Definition carrier_and_digits (m : pystr) : Prop :=
  exists carrier digits,
    m = carrier ++ digits
    /\ length carrier = 2%nat
    /\ forallb is_upper carrier = true
    /\ (3 <= length digits <= 4)%nat
    /\ forallb isdecimal_char digits = true.

(** The first digit run of a text, said directly: pass over what is no
    digit, then take digits as long as they last. *)
Fixpoint digit_run (s : pystr) : pystr :=
  match s with
  | [] => []
  | c :: s' => if isdecimal_char c then c :: digit_run s' else []
  end.

Fixpoint first_digit_run (s : pystr) : option pystr :=
  match s with
  | [] => None
  | c :: s' =>
      if isdecimal_char c then Some (c :: digit_run s') else first_digit_run s'
  end.

(** ** The identity key *)

(** Records that carry a single field. *)
Definition blank (index : nat) : flight_info :=
  FlightInfo index None None None None None None None None None.

Definition only_flight_number (index : nat) (x : pystr) : flight_info :=
  FlightInfo index None (Some x) None None None None None None None.

Definition only_airline (index : nat) (x : pystr) : flight_info :=
  FlightInfo index (Some x) None None None None None None None None.

(** ** Price statistics *)

(** The digits of a record that takes part in the statistics: its price,
    without the currency sign and the qualifier, when that is a text of
    digits. *)
Definition eligible_digits (flight : flight_info) : option pystr :=
  match price flight with
  | Some p =>
      if negb (pystr_eqb p unknown) && isdigit (price_digits p)
      then Some (price_digits p) else None
  | None => None
  end.

(** [int] of each text, the first failure ending the conversion. *)
Fixpoint int_all (texts : list pystr) : exc (list N) :=
  match texts with
  | [] => Ok []
  | t :: rest => n ← py_int t; ns ← int_all rest; Ok (n :: ns)
  end.

Definition priced (index : nat) (p : pystr) : flight_info :=
  FlightInfo index None None None None None None None None (Some p).

(** ** Validation and the error envelope *)

Definition error_code_of (outcome : exc envelope * list browser_event)
  : option error_code :=
  match fst outcome with
  | Ok (error code _) => Some code
  | _ => None
  end.

(** A world in which every city resolves, with the given clock and
    browser. *)
Definition world_with (today : date) (session : exc page) : world :=
  World true true (fun _ => Some (py "BJS")) (fun _ => Some (py "北京"))
    today session.

(** The same world without the browser driver installed. *)
Definition world_without_driver (today : date) : world :=
  World false true (fun _ => Some (py "BJS")) (fun _ => Some (py "北京"))
    today (Raise (py "DrissionPage库未安装，无法使用航班路线查询功能")).

(** The world without the city dictionary: the two lookups are [None]
    there and are never called. *)
Definition world_without_dictionary (today : date) : world :=
  World true false (fun _ => None) (fun _ => None) today
    (Raise (py "browser did not start")).

Definition no_browser : exc page := Raise (py "browser did not start").

(** All checks that precede the browser session pass. *)
Definition passes_validation (w : world)
    (departure_city destination_city departure_date : pystr) : bool :=
  truthy departure_city && truthy destination_city && truthy departure_date
  && DRISSION_PAGE_AVAILABLE w && cities_dict_imported w
  && match strptime_ymd departure_date with
     | Some d => negb (date_ltb d (today w))
     | None => false
     end
  && truthy_opt (get_airport_code w departure_city)
  && truthy_opt (get_airport_code w destination_city).


(** A query that finds no flight item. *)
Definition no_items : items_query := ItemsQuery (Ok []) (Ok []).


(** ** The record extractor *)

(** A found element shown with the given text. *)
Definition shown (t : pystr) : lookup := found (Element (Ok t) (Ok None)).







(** A container showing a flight number, a departure time and a price. *)
Definition container_of (number time price : pystr) : container :=
  Container absent (shown number) absent absent (shown time) absent absent
    absent absent absent (shown price) (Ok None).

(** ** The incremental loader *)

(** Thirty containers showing the flight numbers MU100 to MU129. *)
Definition numbered_container (n : nat) : container :=
  container_of [77; 85; 49; 48 + N.of_nat (n / 10); 48 + N.of_nat (n mod 10)]
    (py "08:00") (py "¥500").

Definition thirty_containers : list container :=
  numbered_container <$> seq 0 30.

Definition items (cs : list container) : items_query := ItemsQuery (Ok cs) (Ok []).

(** A page that shows the same containers in every round. *)
Definition still_page (cs : list container) (i : nat) : round_obs :=
  RoundObs (items cs) 4000%Z (items cs).

(** ** The deduplicator across the scroll rounds and the final pass *)

(** The records a list of containers yields, in order; [i] is the position
    of the first one. *)
Fixpoint parsed (cs : list container) (i : nat) : list flight_info :=
  match cs with
  | [] => []
  | c :: rest =>
      match _parse_flight_container c (i + 1) with
      | Ok (Some info) => info :: parsed rest (S i)
      | Ok None | Raise _ => parsed rest (S i)
      end
  end.

(** The records a query for flight items offers. *)
Definition query_records (q : items_query) : list flight_info :=
  match query_items q with
  | Ok cs => parsed cs 0
  | Raise _ => []
  end.

(** The records offered during the rounds of a log: those of the rounds
    that got as far as collecting. *)
Definition scroll_offers (page : nat -> round_obs) (log : list round_report)
  : list flight_info :=
  flat_map
    (fun report =>
       match current_count report with
       | Some _ => query_records (visible_items (page (round_no report)))
       | None => []
       end)
    log.

(** The records the final pass offers. *)
Definition final_offers (obs : final_obs) : list flight_info :=
  match body_wrapper obs with
  | Ok true => query_records (wrapped_items obs)
  | _ => []
  end.

Definition has_key (info : flight_info) : bool := truthy (_make_flight_key info).

(** The records that are candidates for the merged set, in the order they
    are met: those of the scroll rounds that have a key, then those of the
    final pass that have a flight number. *)
Definition candidates (page : page) : list flight_info :=
  List.filter has_key
    (scroll_offers (scroll_round page)
       (snd (_intelligent_scroll_for_content (scroll_round page) empty_collector)))
  ++ List.filter has_flight_number (final_offers (final_pass page)).

(** First seen wins, said directly: a candidate is kept when its key has
    not been met before; a candidate without a key is always kept. *)
Fixpoint first_seen (seen : gset pystr) (offers : list flight_info)
  : list flight_info :=
  match offers with
  | [] => []
  | info :: rest =>
      let key := _make_flight_key info in
      if truthy key then
        if bool_decide (key ∈ seen) then first_seen seen rest
        else info :: first_seen ({[key]} ∪ seen) rest
      else info :: first_seen seen rest
  end.

(** The keys met in a list of candidates, on top of those seen before. *)
Fixpoint seen_after (seen : gset pystr) (offers : list flight_info)
  : gset pystr :=
  match offers with
  | [] => seen
  | info :: rest =>
      let key := _make_flight_key info in
      if truthy key && negb (bool_decide (key ∈ seen))
      then seen_after ({[key]} ∪ seen) rest
      else seen_after seen rest
  end.

(** The non-empty keys of a list of records. *)
Definition keyed (flights : list flight_info) : list pystr :=
  List.filter truthy (_make_flight_key <$> flights).

Definition collect_step (st : collector) (info : flight_info) : collector :=
  fst (collect_record st info).

Definition final_step (acc : list flight_info * gset pystr)
    (info : flight_info) : list flight_info * gset pystr :=
  final_record (fst acc) (snd acc) info.

(** A page that loads, shows what [rounds] says while it is scrolled and
    what [final] says to the final pass. *)
Definition page_showing (rounds : nat -> round_obs) (final : final_obs) : page :=
  Page (Ok tt) (Ok tt) (Ok tt) rounds final (Ok tt).

(** A container showing a departure time and a price, and one showing a
    price only. *)
Definition time_and_price (time price : pystr) : container :=
  Container absent absent absent absent (shown time) absent absent absent
    absent absent (shown price) (Ok None).

Definition price_only (price : pystr) : container :=
  Container absent absent absent absent absent absent absent absent absent
    absent (shown price) (Ok None).

(** Two fares of one flight, shown in every round and to the final pass. *)
Definition two_fares : list container :=
  [ container_of (py "MU6863") (py "08:00") (py "¥500");
    container_of (py "MU6863") (py "08:00") (py "¥450") ].

Definition page_with_two_fares : page :=
  page_showing (still_page two_fares) (FinalObs (Ok true) (items two_fares)).

Definition fare (index : nat) (price : pystr) : flight_info :=
  FlightInfo index None (Some (py "MU6863")) (Some (py "08:00")) None None
    None None None (Some price).

(** Two flights that leave at 08:00, loaded after the last scroll round
    and seen by the final pass only. *)
Definition late_arrivals : list container :=
  [ time_and_price (py "08:00") (py "¥500");
    time_and_price (py "08:00") (py "¥600") ].

Definition page_with_late_arrivals : page :=
  page_showing (still_page []) (FinalObs (Ok true) (items late_arrivals)).

(** ** Records without a key *)

(** A page that shows, in every round and to the final pass, one item of
    which only the price can be read. *)
Definition page_with_price_only : page :=
  page_showing (still_page [price_only (py "¥500")])
    (FinalObs (Ok true) (items [price_only (py "¥500")])).

(** ** Further notions: white space at the ends of a text *)

(** The text does not begin with white space. *)
Definition starts_clean (s : pystr) : bool :=
  match s with
  | [] => true
  | c :: _ => negb (isspace_char c)
  end.

(** The text neither begins nor ends with white space. *)
Definition edge_clean (s : pystr) : bool :=
  starts_clean s && starts_clean (reverse s).

(** ** Further notions: the separator in keys *)

(** The text is made of separators only (the empty text included). *)
Definition only_bars (s : pystr) : bool := forallb (fun c => c =? 124) s.

(** The six fields the key is made of, in order, a missing one as the
    empty text. *)
Definition key_fields (r : flight_info) : list pystr :=
  [ get_or_empty (flightNumber r); get_or_empty (departureTime r);
    get_or_empty (arrivalTime r); get_or_empty (departureAirport r);
    get_or_empty (arrivalAirport r); get_or_empty (airline r) ].

(** ** Further notions: the cache of the scroll rounds *)

(** The cache is coherent: the key set holds exactly the keys of the
    flights collected, every flight has a key, and no two flights share
    one. *)
Definition cache_coherent (st : collector) : Prop :=
  _scrolled_flight_keys st
  = list_to_set (_make_flight_key <$> _scrolled_flights st)
  /\ NoDup (_make_flight_key <$> _scrolled_flights st)
  /\ Forall (fun r => has_key r = true) (_scrolled_flights st).

(** The records a round adds to a cache that has seen the keys [seen]. *)
Definition newly_kept (seen : gset pystr) (q : items_query) : list flight_info :=
  first_seen seen (List.filter has_key (query_records q)).

(** The number of rounds at the end of a log that brought nothing new. *)
Fixpoint quiet_tail (log : list round_report) : nat :=
  match log with
  | [] => O
  | report :: rest =>
      if (quiet_tail rest =? length rest)%nat && (new_in_round report =? 0)%nat
      then S (length rest)
      else quiet_tail rest
  end.

(** ** Further notions: the final pass *)

(** The final pass runs in full: the wrapper is found and holds flight
    items. *)
Definition final_pass_runs (obs : final_obs) : bool :=
  match body_wrapper obs with
  | Ok true =>
      match query_items (wrapped_items obs) with
      | Ok (_ :: _) => true
      | _ => false
      end
  | _ => false
  end.

(** The records the final pass appends to a cache that has seen [seen]. *)
Definition finally_kept (seen : gset pystr) (obs : final_obs) : list flight_info :=
  first_seen seen (List.filter has_flight_number (final_offers obs)).

(** ** Further notions: the statistics *)

(** The airline a flight is counted under. *)
Definition airline_of (flight : flight_info) : pystr :=
  default unknown (airline flight).

(** The count stored for an airline, 0 when it has no entry. *)
Definition count_of (name : pystr) (airlines : list (pystr * nat)) : nat :=
  match List.find (fun entry => pystr_eqb (fst entry) name) airlines with
  | Some entry => snd entry
  | None => O
  end.

(** ** The rendered text of a result *)

(** A city name inside an f-string: [None] is printed as the word. *)
Definition str_of_option (o : option pystr) : pystr := default (py "None") o.

(** ["\n".join(lines)] *)
Fixpoint join_newline (lines : list pystr) : pystr :=
  match lines with
  | [] => []
  | [l] => l
  | l :: rest => l ++ 10 :: join_newline rest
  end.

(** The five lines of the flight at position [i]. *)
Definition flight_lines (i : nat) (flight : flight_info) : list pystr :=
  [ py "【" ++ str_of_nat i ++ py "】" ++ default unknown (airline flight)
      ++ py " " ++ default unknown (flightNumber flight);
    py "    🛫 " ++ default unknown (departureTime flight)
      ++ py " " ++ default unknown (departureAirport flight)
      ++ py " " ++ get_or_empty (departureTerminal flight);
    py "    🛬 " ++ default unknown (arrivalTime flight)
      ++ py " " ++ default unknown (arrivalAirport flight)
      ++ py " " ++ get_or_empty (arrivalTerminal flight);
    py "    💰 " ++ default unknown (price flight);
    [] ].

(** [_format_route_result].  The city names are looked up only when there
    is a flight to show; without the city dictionary [get_city_name] is
    [None], and calling it raises. *)
Definition _format_route_result (w : world) (flights : list flight_info)
    (departure_city destination_city departure_date : pystr) : exc pystr :=
  match flights with
  | [] =>
      Ok (py "😔 未找到 " ++ departure_city ++ py " -> " ++ destination_city
            ++ py " 在 " ++ departure_date ++ py " 的航班")
  | _ :: _ =>
      if cities_dict_imported w then
        let output :=
          [ py "✈️ 航班查询结果";
            py "📍 " ++ str_of_option (get_city_name w departure_city)
              ++ py " -> " ++ str_of_option (get_city_name w destination_city);
            py "📅 " ++ departure_date;
            py "🔢 共找到 " ++ str_of_nat (length flights) ++ py " 条航班";
            [] ]
          ++ mjoin (imap (fun i flight => flight_lines (S i) flight) flights) in
        Ok (join_newline output)
      else Raise (py "'NoneType' object is not callable")
  end.

(** The nine texts the rendering shows of a flight. *)
Definition shown_fields (flight : flight_info) : list pystr :=
  [ default unknown (airline flight); default unknown (flightNumber flight);
    default unknown (departureTime flight);
    default unknown (departureAirport flight);
    get_or_empty (departureTerminal flight);
    default unknown (arrivalTime flight);
    default unknown (arrivalAirport flight);
    get_or_empty (arrivalTerminal flight);
    default unknown (price flight) ].

(** ** Further notions: the next-day marker *)

(** Every next-day marker of the text comes right after a space;
    [after_space] says whether the character before the text is one. *)
Fixpoint markers_set_off (after_space : bool) (s : pystr) : bool :=
  match s with
  | [] => true
  | c :: s' =>
      (if starts_with (py "+1天") s then after_space else true)
      && markers_set_off (c =? 32) s'
  end.

(** * Properties *)

(** ** Strings and patterns *)

Lemma greedy_run_take p lim s k :
  (k <= greedy_run p lim s)%nat ->
  forallb p (take k s) = true
  /\ length (take k s) = k
  /\ (forall hi, lim = Some hi -> (k <= hi)%nat).
Proof.
  revert lim k. induction s as [|c s IH]; intros lim k Hk.
  - assert (k = O) as -> by (destruct lim as [[|?]|]; simpl in Hk; lia).
    repeat split. intros; lia.
  - destruct k as [|k]; [repeat split; intros; lia|].
    assert (p c = true /\ (k <= greedy_run p (Nat.pred <$> lim) s)%nat
            /\ lim <> Some O) as (Hc & Hk' & Hlim).
    { destruct lim as [[|hi]|]; simpl in Hk; [lia| |];
        destruct (p c); try lia; repeat split; simpl; try lia; congruence. }
    destruct (IH _ _ Hk') as (H1 & H2 & H3).
    simpl. rewrite Hc, H1, H2. repeat split.
    intros hi ->. destruct hi as [|hi]; [done|].
    specialize (H3 hi eq_refl). lia.
Qed.

Lemma give_back_some f lo s k0 n :
  give_back f lo s k0 = Some n ->
  exists k m, (lo <= k <= k0)%nat /\ f (drop k s) = Some m /\ n = (k + m)%nat.
Proof.
  induction k0 as [|k0 IH]; simpl.
  - destruct (0 <? lo)%nat eqn:Hlo; [discriminate|].
    apply Nat.ltb_ge in Hlo.
    destruct (f (drop 0 s)) as [m|] eqn:Hf; [|discriminate].
    intros [= <-]. exists O, m. repeat split; auto; lia.
  - destruct (S k0 <? lo)%nat eqn:Hlo; [discriminate|].
    apply Nat.ltb_ge in Hlo.
    destruct (f (drop (S k0) s)) as [m|] eqn:Hf.
    + intros [= <-]. exists (S k0), m. repeat split; auto; lia.
    + intros H. destruct (IH H) as (k & m & Hk & Hm & ->).
      exists k, m. repeat split; auto; lia.
Qed.

(** The matcher only reports matches of the pattern. *)
Lemma match_here_sound r s n :
  match_here r s = Some n -> matches r (take n s) /\ (n <= length s)%nat.
Proof.
  revert s n. induction r as [|a r IH]; intros s n; simpl.
  - intros [= <-]. split; [constructor | lia].
  - intros H. apply give_back_some in H as (k & m & Hk & Hm & ->).
    apply IH in Hm as [Hm Hlen].
    destruct (greedy_run_take _ _ _ _ (proj2 Hk)) as (H1 & H2 & H3).
    rewrite length_drop in Hlen.
    assert (take (k + m) s = take k s ++ take m (drop k s)) as ->.
    { rewrite <- (take_drop k s) at 1.
      rewrite take_app_add'; [done|]. by rewrite H2. }
    split; [|rewrite length_take in H2; lia].
    constructor; auto; rewrite H2; [lia|auto].
Qed.

Lemma re_search_sound r s m :
  re_search r s = Some m ->
  matches r m /\ exists before after, s = before ++ m ++ after.
Proof.
  induction s as [|c s IH]; simpl.
  - destruct (match_here r []) as [n|] eqn:H; [|discriminate].
    intros [= <-]. apply match_here_sound in H as [H _]. split; [done|].
    exists [], (drop n []). by rewrite take_drop.
  - destruct (match_here r (c :: s)) as [n|] eqn:H.
    + intros [= <-]. apply match_here_sound in H as [H _]. split; [done|].
      exists [], (drop n (c :: s)). by rewrite take_drop.
    + intros Hs. destruct (IH Hs) as (Hm & before & after & ->).
      split; [done|]. by exists (c :: before), after.
Qed.

Lemma matches_flight_number m :
  matches flight_number_re m -> carrier_and_digits m.
Proof.
  intros H. inversion H as [|a r carrier rest Hc Hlo Hhi Hr]; subst.
  inversion Hr as [|a' r' digits rest' Hd Hlo' Hhi' Hr']; subst.
  inversion Hr'; subst. simpl in *.
  exists carrier, digits. rewrite app_nil_r.
  specialize (Hhi _ eq_refl). specialize (Hhi' _ eq_refl).
  repeat split; auto; lia.
Qed.

Lemma flight_number_found m :
  carrier_and_digits m -> re_search flight_number_re m = Some m.
Proof.
  intros (carrier & digits & -> & Hc & Hu & Hd & Hdec).
  destruct carrier as [|a [|b [|]]]; try discriminate.
  destruct digits as [|d1 [|d2 [|d3 [|d4 [|]]]]]; simpl in Hd; try lia;
    simpl in Hu, Hdec;
    repeat match goal with
           | H : _ && _ = true |- _ => apply andb_prop in H as [? ?]
           end;
    unfold flight_number_re; simpl;
    repeat match goal with
           | H : _ = true |- _ => rewrite H
           end; simpl;
    repeat match goal with
           | H : _ = true |- _ => rewrite H
           end; simpl; reflexivity.
Qed.

(** C7: the flight-number pattern finds a two-capital-letter carrier code
    followed by three or four digits and nothing else: it finds MU6863 in
    "MU6863", finds nothing in "M6863" nor in "MU68", finds every text of
    that shape, and whatever it finds in a text is a part of the text of
    that shape. *)
Theorem flight_number_pattern :
  re_search flight_number_re (py "MU6863") = Some (py "MU6863")
  /\ re_search flight_number_re (py "M6863") = None
  /\ re_search flight_number_re (py "MU68") = None
  /\ (forall m, carrier_and_digits m -> re_search flight_number_re m = Some m)
  /\ (forall s m,
        re_search flight_number_re s = Some m ->
        carrier_and_digits m /\ exists before after, s = before ++ m ++ after).
Proof.
  split; [vm_compute; reflexivity|].
  split; [vm_compute; reflexivity|].
  split; [vm_compute; reflexivity|].
  split; [exact flight_number_found|].
  intros s m H. apply re_search_sound in H as [H Hin].
  split; [by apply matches_flight_number | exact Hin].
Qed.

Lemma flight_number_pattern_witness :
  re_search flight_number_re (py "航班 CA1234 经停") = Some (py "CA1234")
  /\ carrier_and_digits (py "CA1234").
Proof.
  assert (re_search flight_number_re (py "航班 CA1234 经停")
          = Some (py "CA1234")) as H by (vm_compute; reflexivity).
  split; [exact H|].
  exact (proj1 (proj2 (proj2 (proj2 (proj2 flight_number_pattern))) _ _ H)).
Defined.

Lemma take_greedy_run s :
  take (greedy_run isdecimal_char None s) s = digit_run s.
Proof.
  induction s as [|c s IH]; simpl; [done|].
  destruct (isdecimal_char c); simpl; [by rewrite IH | done].
Qed.

Lemma match_digits s :
  match_here digits_re s =
    match greedy_run isdecimal_char None s with
    | O => None
    | S k => Some (S k)
    end.
Proof.
  unfold digits_re. simpl.
  destruct (greedy_run isdecimal_char None s) as [|k]; simpl; [done|].
  by rewrite Nat.add_0_r.
Qed.

(** The pattern [\d+] finds the first digit run. *)
Lemma search_digits s : re_search digits_re s = first_digit_run s.
Proof.
  induction s as [|c s IH].
  - reflexivity.
  - unfold re_search; fold re_search. rewrite match_digits.
    pose proof (take_greedy_run (c :: s)) as Ht. simpl in *.
    destruct (isdecimal_char c); simpl in *; [by rewrite <- Ht | exact IH].
Qed.

(** C8: price normalisation keeps a text that already holds the currency
    sign as it is, and otherwise puts the sign before the first digit run
    of the text: "¥1200" stays "¥1200", "1200起" becomes "¥1200".  The text
    is that of the price element, stripped of surrounding white space. *)
Theorem price_normalization :
  (forall t, contains (py "¥") t = true -> normalize_price t = Some t)
  /\ (forall t,
        contains (py "¥") t = false ->
        normalize_price t = (fun digits => py "¥" ++ digits) <$> first_digit_run t)
  /\ normalize_price (py "¥1200") = Some (py "¥1200")
  /\ normalize_price (py "1200起") = Some (py "¥1200")
  /\ (forall c e t,
        price_span c = found e -> text e = Ok t ->
        extract_price c = Ok (normalize_price (strip t))).
Proof.
  split; [intros t H; unfold normalize_price; by rewrite H|].
  split.
  { intros t H. unfold normalize_price. rewrite H, search_digits.
    by destruct (first_digit_run t). }
  split; [vm_compute; reflexivity|].
  split; [vm_compute; reflexivity|].
  intros c e t Hc Ht. unfold extract_price. rewrite Hc. simpl. by rewrite Ht.
Qed.

Lemma price_normalization_witness :
  contains (py "¥") (py "¥980起") = true
  /\ normalize_price (py "¥980起") = Some (py "¥980起").
Proof.
  assert (contains (py "¥") (py "¥980起") = true) as H
    by (vm_compute; reflexivity).
  split; [exact H|].
  exact (proj1 price_normalization (py "¥980起") H).
Defined.

(** ** The identity key *)

Lemma lstrip_bar_snoc x :
  lstrip_bar (x ++ [124]) =
    match lstrip_bar x with
    | [] => []
    | y => y ++ [124]
    end.
Proof.
  induction x as [|c x IH]; simpl; [done|].
  destruct (c =? 124); [exact IH | done].
Qed.

Lemma strip_bar_snoc x : strip_bar (x ++ [124]) = strip_bar x.
Proof.
  unfold strip_bar. rewrite lstrip_bar_snoc.
  destruct (lstrip_bar x) as [|c y]; [done|].
  by rewrite reverse_snoc.
Qed.

Lemma key_only_flight_number i x :
  _make_flight_key (only_flight_number i x) = strip_bar x.
Proof.
  unfold _make_flight_key; simpl.
  change (x ++ [124; 124; 124; 124; 124])
    with (x ++ [124] ++ [124] ++ [124] ++ [124] ++ [124]).
  rewrite !app_assoc. by rewrite !strip_bar_snoc.
Qed.

Lemma key_only_airline i x :
  _make_flight_key (only_airline i x) = strip_bar x.
Proof. reflexivity. Qed.

(** C10: the identity key does not tell the fields apart.  A record that
    holds a text as its flight number and nothing else, and a record that
    holds the same text as its airline and nothing else, have the same key;
    for the text "X" the key of both is "X", and the deduplicator, having
    stored the first, takes the second for a flight it has seen and drops
    it. *)
Theorem flight_key_not_injective :
  (forall x i j,
     _make_flight_key (only_flight_number i x)
     = _make_flight_key (only_airline j x))
  /\ _make_flight_key (only_flight_number 1 (py "X")) = py "X"
  /\ _make_flight_key (only_airline 2 (py "X")) = py "X"
  /\ flightNumber (only_airline 2 (py "X")) = None
  /\ airline (only_flight_number 1 (py "X")) = None
  /\ (let '(st, is_new) :=
        collect_record empty_collector (only_flight_number 1 (py "X")) in
      is_new = true
      /\ _scrolled_flights st = [only_flight_number 1 (py "X")]
      /\ collect_record st (only_airline 2 (py "X")) = (st, false)).
Proof.
  split; [intros; by rewrite key_only_flight_number, key_only_airline|].
  split; [vm_compute; reflexivity|].
  split; [vm_compute; reflexivity|].
  split; [reflexivity|]. split; [reflexivity|].
  unfold collect_record at 1.
  rewrite key_only_flight_number.
  change (strip_bar (py "X")) with (py "X"). simpl.
  rewrite bool_decide_eq_false_2 by set_solver.
  split; [done|]. split; [done|].
  unfold collect_record. rewrite key_only_airline.
  change (strip_bar (py "X")) with (py "X"). simpl.
  rewrite bool_decide_eq_true_2 by set_solver. done.
Qed.

(** ** Price statistics *)

Lemma counted_price_spec f :
  counted_price f =
    match eligible_digits f with
    | Some t => n ← py_int t; Ok (Some n)
    | None => Ok None
    end.
Proof.
  unfold counted_price, eligible_digits.
  destruct (price f) as [p|]; [|done].
  destruct (pystr_eqb p unknown); [done|]. simpl.
  by destruct (isdigit (price_digits p)).
Qed.

Lemma collect_prices_spec flights prices :
  collect_prices flights prices =
    (ns ← int_all (omap eligible_digits flights); Ok (prices ++ ns)).
Proof.
  unfold omap. revert prices.
  induction flights as [|f flights IH]; intros prices; simpl.
  - by rewrite app_nil_r.
  - rewrite counted_price_spec.
    destruct (eligible_digits f) as [t|]; simpl; [|apply IH].
    destruct (py_int t) as [n|e]; simpl; [|done].
    rewrite IH. destruct (int_all (list_omap _ _ eligible_digits flights)); simpl; [|done].
    by rewrite <- app_assoc.
Qed.

Lemma floor_div (s n : N) :
  n <> 0 -> s / n * n <= s /\ s < (s / n + 1) * n.
Proof.
  intros Hn.
  pose proof (N.Div0.mul_div_le s n) as Hle.
  pose proof (N.mul_succ_div_gt s n Hn) as Hgt.
  revert Hle Hgt. generalize (s / n). intros q Hle Hgt. split; nia.
Qed.

Lemma price_stats_avg prices stats :
  price_stats_of prices = Some stats ->
  avg_price stats = sum prices / N.of_nat (length prices)
  /\ avg_price stats * N.of_nat (length prices) <= sum prices
  /\ sum prices < (avg_price stats + 1) * N.of_nat (length prices).
Proof.
  destruct prices as [|x rest]; [discriminate|].
  intros [= <-]. split; [done|].
  apply (floor_div (sum (x :: rest)) (N.of_nat (length (x :: rest)))).
  simpl. lia.
Qed.

(** The price loop said directly: [int] over the texts of the records that
    pass the guard, the first failure ending it. *)
Lemma statistics_spec f flights :
  statistics (f :: flights) =
    (prices ← int_all (omap eligible_digits (f :: flights));
     Ok (price_stats_of prices, Some (airline_counts (f :: flights)))).
Proof.
  unfold statistics. rewrite collect_prices_spec.
  by destruct (int_all (omap eligible_digits (f :: flights))).
Qed.

Lemma int_all_raises texts t :
  t ∈ texts -> (exists e, py_int t = Raise e) ->
  exists e, int_all texts = Raise e.
Proof.
  intros Ht Hr. induction texts as [|x texts IH].
  - by apply elem_of_nil in Ht.
  - cbn [int_all]. apply elem_of_cons in Ht as [<-|Ht].
    + destruct Hr as [e ->]. by exists e.
    + destruct (py_int x) as [n|e]; [|by exists e].
      destruct (IH Ht) as [e ->]. by exists e.
Qed.

(** One record that passes the guard and is refused by [int] takes the
    statistics of all the flights with it. *)
Lemma statistics_raise flights f t :
  f ∈ flights -> eligible_digits f = Some t ->
  (exists e, py_int t = Raise e) ->
  exists e, statistics flights = Raise e.
Proof.
  intros Hf Ht Hr. destruct flights as [|g flights].
  { by apply elem_of_nil in Hf. }
  rewrite statistics_spec.
  destruct (int_all_raises (omap eligible_digits (g :: flights)) t) as [e ->];
    [|exact Hr|by exists e].
  apply list_elem_of_omap. by exists f.
Qed.

(** The conversion succeeds on decimal digits, so the statistics are
    produced for the prices a page usually shows. *)
Lemma decimal_value_total s acc :
  forallb isdecimal_char s = true -> exists n, decimal_value s acc = Some n.
Proof.
  revert acc. induction s as [|c s IH]; intros acc H; simpl.
  - by eexists.
  - simpl in H. apply andb_prop in H as [Hc Hs]. unfold isdecimal_char in Hc.
    destruct (to_decimal c); [|discriminate]. by apply IH.
Qed.

Lemma leading_decimals_le s : (leading_decimals s <= length s)%nat.
Proof.
  induction s as [|c s IH]; simpl; [lia|].
  destruct (isdecimal_char c); simpl; lia.
Qed.

Lemma py_int_decimal s :
  forallb isdecimal_char s = true ->
  N.of_nat (length s) <= int_max_str_digits ->
  exists n, py_int s = Ok n.
Proof.
  intros H Hlen. destruct (decimal_value_total s 0 H) as [n Hn].
  exists n. unfold py_int. rewrite Hn.
  pose proof (leading_decimals_le s) as Hle.
  destruct (N.ltb_spec int_max_str_digits (N.of_nat (leading_decimals s)));
    [lia|done].
Qed.

(** The bound on the digits: 4300 decimal digits are converted, 4301 are
    refused, also when a character that is no decimal digit follows. *)
Example int_digit_limit :
  (exists n, py_int (repeat 49 4300) = Ok n)
  /\ py_int (repeat 49 4301)
     = Raise (py "Exceeds the limit (4300 digits) for integer string conversion: value has 4301 digits; use sys.set_int_max_str_digits() to increase the limit")
  /\ py_int (repeat 49 4301 ++ py "²")
     = Raise (py "Exceeds the limit (4300 digits) for integer string conversion: value has 4301 digits; use sys.set_int_max_str_digits() to increase the limit")
  /\ py_int (repeat 49 4300 ++ py "²")
     = Raise (py "invalid literal for int() with base 10: '" ++ repeat 49 199).
Proof.
  split.
  { apply py_int_decimal; [by vm_compute|by vm_compute]. }
  split; [vm_compute; reflexivity|].
  split; vm_compute; reflexivity.
Qed.

(** ** Validation and the error envelope *)

(** The checks on the date come fourth and fifth: after the emptiness
    check and after the two imports. *)
Lemma date_checks_reached w dep dst date :
  truthy dep = true -> truthy dst = true -> truthy date = true ->
  DRISSION_PAGE_AVAILABLE w = true -> cities_dict_imported w = true ->
  searchFlightRoutes w dep dst date =
    match strptime_ymd date with
    | None =>
        (Ok (error INVALID_DATE_FORMAT
               (py "日期格式不正确，请使用YYYY-MM-DD格式")), [])
    | Some d =>
        if date_ltb d (today w)
        then (Ok (error PAST_DATE (py "不能查询过去的日期")), [])
        else searchFlightRoutes w dep dst date
    end.
Proof.
  intros Hdep Hdst Hdate Hdp Hcd.
  unfold searchFlightRoutes, search_body.
  rewrite Hdep, Hdst, Hdate, Hdp, Hcd. simpl.
  destruct (strptime_ymd date) as [d|]; [|done].
  destruct (date_ltb d (today w)); [done|]. reflexivity.
Qed.

(** C6, as the code has it: the checks are made in this order, and each
    answers before any browser session is started.  An empty argument,
    whichever of the three it is, yields INVALID_PARAMS; then a missing
    browser driver yields DRISSION_PAGE_NOT_AVAILABLE and a missing city
    dictionary CITIES_DICT_NOT_AVAILABLE; then, with the three arguments
    non-empty and both imports available, a date text that does not parse
    yields INVALID_DATE_FORMAT and a date before today yields PAST_DATE.
    "2025-13-01" does not parse and "2020-01-01" is the first of January
    2020. *)
Theorem validation_error_codes :
  forall w dep dst date,
    searchFlightRoutes w [] dst date
    = (Ok (error INVALID_PARAMS (py "出发地、目的地和出发日期都不能为空")), [])
    /\ (truthy dep = true -> truthy dst = true -> truthy date = true ->
        DRISSION_PAGE_AVAILABLE w = true -> cities_dict_imported w = true ->
        (strptime_ymd date = None ->
         searchFlightRoutes w dep dst date
         = (Ok (error INVALID_DATE_FORMAT
                  (py "日期格式不正确，请使用YYYY-MM-DD格式")), []))
        /\ (forall d,
              strptime_ymd date = Some d -> date_ltb d (today w) = true ->
              searchFlightRoutes w dep dst date
              = (Ok (error PAST_DATE (py "不能查询过去的日期")), [])))
    /\ strptime_ymd (py "2025-13-01") = None
    /\ strptime_ymd (py "2020-01-01") = Some (Date 2020 1 1)
    /\ error_code_of
         (searchFlightRoutes (world_with (Date 2026 11 4) no_browser)
            (py "北京") (py "上海") (py "2020-01-01")) = Some PAST_DATE
    /\ error_code_of
         (searchFlightRoutes (world_with (Date 2026 11 4) no_browser)
            (py "北京") (py "上海") (py "2025-13-01")) = Some INVALID_DATE_FORMAT
    /\ (truthy dep = false \/ truthy dst = false \/ truthy date = false ->
        searchFlightRoutes w dep dst date
        = (Ok (error INVALID_PARAMS (py "出发地、目的地和出发日期都不能为空")),
           []))
    /\ (truthy dep = true -> truthy dst = true -> truthy date = true ->
        DRISSION_PAGE_AVAILABLE w = false ->
        searchFlightRoutes w dep dst date
        = (Ok (error DRISSION_PAGE_NOT_AVAILABLE
                 (py "DrissionPage库未安装，无法进行航班搜索")), []))
    /\ (truthy dep = true -> truthy dst = true -> truthy date = true ->
        DRISSION_PAGE_AVAILABLE w = true -> cities_dict_imported w = false ->
        searchFlightRoutes w dep dst date
        = (Ok (error CITIES_DICT_NOT_AVAILABLE
                 (py "城市字典未找到，无法进行航班搜索")), []))
    /\ searchFlightRoutes (world_with (Date 2026 11 4) no_browser)
         (py "北京") (py "") (py "2020-01-01")
       = (Ok (error INVALID_PARAMS (py "出发地、目的地和出发日期都不能为空")),
          [])
    /\ searchFlightRoutes (world_with (Date 2026 11 4) no_browser)
         (py "北京") (py "上海") (py "")
       = (Ok (error INVALID_PARAMS (py "出发地、目的地和出发日期都不能为空")),
          [])
    /\ searchFlightRoutes (world_without_driver (Date 2026 11 4))
         (py "北京") (py "上海") (py "2020-01-01")
       = (Ok (error DRISSION_PAGE_NOT_AVAILABLE
                (py "DrissionPage库未安装，无法进行航班搜索")), [])
    /\ searchFlightRoutes (world_without_dictionary (Date 2026 11 4))
         (py "北京") (py "上海") (py "2020-01-01")
       = (Ok (error CITIES_DICT_NOT_AVAILABLE
                (py "城市字典未找到，无法进行航班搜索")), []).
Proof.
  intros w dep dst date.
  split; [reflexivity|].
  split.
  { intros Hdep Hdst Hdate Hdp Hcd.
    rewrite (date_checks_reached w dep dst date) by assumption.
    split.
    - by intros ->.
    - intros d -> Hd. by rewrite Hd. }
  do 4 (split; [vm_compute; reflexivity|]).
  split.
  { unfold searchFlightRoutes, search_body.
    intros [-> | [-> | ->]]; [done| |].
    - by destruct (truthy dep).
    - by destruct (truthy dep), (truthy dst). }
  split.
  { intros Hdep Hdst Hdate Hdp. unfold searchFlightRoutes, search_body.
    by rewrite Hdep, Hdst, Hdate, Hdp. }
  split.
  { intros Hdep Hdst Hdate Hdp Hcd. unfold searchFlightRoutes, search_body.
    by rewrite Hdep, Hdst, Hdate, Hdp, Hcd. }
  repeat split; vm_compute; reflexivity.
Qed.

(** C6 as stated fails when another check comes first: an empty date text
    does not parse, yet the answer is INVALID_PARAMS; a past date with an
    empty destination city is answered INVALID_PARAMS; a past date without
    the browser driver is answered DRISSION_PAGE_NOT_AVAILABLE. *)
Lemma validation_order_counterexample :
  strptime_ymd (py "") = None
  /\ error_code_of
       (searchFlightRoutes (world_with (Date 2026 11 4) no_browser)
          (py "北京") (py "上海") (py "")) = Some INVALID_PARAMS
  /\ strptime_ymd (py "2020-01-01") = Some (Date 2020 1 1)
  /\ date_ltb (Date 2020 1 1) (Date 2026 11 4) = true
  /\ error_code_of
       (searchFlightRoutes (world_with (Date 2026 11 4) no_browser)
          (py "北京") (py "") (py "2020-01-01")) = Some INVALID_PARAMS
  /\ error_code_of
       (searchFlightRoutes (world_without_driver (Date 2026 11 4))
          (py "北京") (py "上海") (py "2020-01-01"))
     = Some DRISSION_PAGE_NOT_AVAILABLE.
Proof. repeat split; vm_compute; reflexivity. Qed.

Lemma validation_error_codes_witness :
  strptime_ymd (py "2020-01-01") = Some (Date 2020 1 1)
  /\ date_ltb (Date 2020 1 1) (Date 2026 11 4) = true
  /\ searchFlightRoutes (world_with (Date 2026 11 4) no_browser)
       (py "北京") (py "上海") (py "2020-01-01")
     = (Ok (error PAST_DATE (py "不能查询过去的日期")), []).
Proof.
  split; [vm_compute; reflexivity|]. split; [vm_compute; reflexivity|].
  refine (proj2 (proj1 (proj2 (validation_error_codes
            (world_with (Date 2026 11 4) no_browser)
            (py "北京") (py "上海") (py "2020-01-01"))) _ _ _ _ _)
            (Date 2020 1 1) _ _); vm_compute; reflexivity.
Defined.

(** Once validation has passed, the outcome is decided by the browser
    session. *)
Lemma validated_search w dep dst date :
  passes_validation w dep dst date = true ->
  search_body w dep dst date =
    match new_session w with
    | Raise e => (Raise e, [session_start])
    | Ok searcher =>
        (closed ← page_quit searcher;
         flights ← search_flights w searcher dep dst date;
         stats ← statistics flights;
         Ok (success
               (SearchResult dep dst date (get_city_name w dep)
                  (get_city_name w dst) (length flights) flights
                  (fst stats) (snd stats))),
         [session_start; session_close])
    end.
Proof.
  unfold passes_validation, search_body. intros H.
  repeat match type of H with
         | _ && _ = true => apply andb_prop in H as [H ?]
         end.
  destruct (strptime_ymd date) as [d|]; [|discriminate].
  repeat match goal with
         | H : _ = true |- _ =>
             first [ rewrite H | apply negb_true_iff in H; rewrite H ]
         end.
  reflexivity.
Qed.

(** [search_flights] absorbs every exception of the page. *)
Lemma search_flights_never_raises w p dep dst date :
  exists flights, search_flights w p dep dst date = Ok flights.
Proof.
  unfold search_flights.
  destruct (_ || _); [by eexists|].
  destruct (strptime_ymd date); [|by eexists].
  destruct (page_get p); simpl; [|by eexists].
  destruct (wait_for_page_ready p); simpl; [|by eexists].
  destruct (wait_for_flight_content p); simpl; by eexists.
Qed.





(** C9, where the code misses it: the guard [isdigit] admits digits that
    [int] refuses.  The price "¥²" passes the guard, [int] raises on it,
    and the exception ends the statistics and the whole search, which is
    answered SEARCH_FAILED although a flight with the price "¥100" was
    found too.  Whenever a flight of a validated search passes the guard
    and is refused by [int], the answer is SEARCH_FAILED.  With decimal
    prices the statistics are those of the claim: 100 and 101 average to
    100. *)
Theorem digit_guard_admits_what_int_refuses :
  isdigit (price_digits (py "¥²")) = true
  /\ py_int (price_digits (py "¥²"))
     = Raise (py "invalid literal for int() with base 10: '²'")
  /\ statistics [priced 1 (py "¥100"); priced 2 (py "¥²")]
     = Raise (py "invalid literal for int() with base 10: '²'")
  /\ searchFlightRoutes
       (world_with (Date 2026 11 4)
          (Ok (page_showing
                 (still_page
                    [container_of (py "CA1501") (py "07:00") (py "¥100");
                     container_of (py "MU6863") (py "08:00") (py "¥²")])
                 (FinalObs (Ok false) no_items))))
       (py "北京") (py "上海") (py "2026-11-11")
     = (Ok (error SEARCH_FAILED
              (py "查询航班路线失败: invalid literal for int() with base 10: '²'")),
        [session_start; session_close])
  /\ (forall w dep dst date p flights f t,
        passes_validation w dep dst date = true ->
        new_session w = Ok p -> page_quit p = Ok tt ->
        search_flights w p dep dst date = Ok flights ->
        f ∈ flights -> eligible_digits f = Some t ->
        (exists e, py_int t = Raise e) ->
        error_code_of (searchFlightRoutes w dep dst date) = Some SEARCH_FAILED)
  /\ statistics [priced 1 (py "¥100"); priced 2 (py "¥101起");
                 priced 3 (py "¥--"); blank 4]
     = Ok (Some (PriceStats 100 101 100), Some [(unknown, 4%nat)]).
Proof.
  do 4 (split; [vm_compute; reflexivity|]).
  split; [|vm_compute; reflexivity].
  intros w dep dst date p flights f t Hv Hp Hq Hs Hf Ht Hr.
  unfold error_code_of, searchFlightRoutes.
  rewrite (validated_search _ _ _ _ Hv), Hp. cbn [fst].
  rewrite Hq, Hs. cbn [mbind exc_bind].
  destruct (statistics_raise flights f t Hf Ht Hr) as [e ->]. reflexivity.
Qed.

(** ** The record extractor *)

Ltac step_exc :=
  match goal with
  | |- context [mbind _ ?m] =>
      let e := fresh "e" in destruct m as [?|e] eqn:?; simpl
  end.

(** Each field of an extracted record is what its own extraction gave. *)
Lemma extract_fields_ok c i r :
  extract_fields c i = Ok r ->
  index r = i
  /\ stripped_text (airline_name_span c) = Ok (airline r)
  /\ extract_flight_number c = Ok (flightNumber r)
  /\ stripped_text (depart_box_time c) = Ok (departureTime r)
  /\ stripped_text (depart_box_name c) = Ok (departureAirport r)
  /\ stripped_text (depart_box_terminal c) = Ok (departureTerminal r)
  /\ extract_arrival_time c = Ok (arrivalTime r)
  /\ stripped_text (arrive_box_name c) = Ok (arrivalAirport r)
  /\ stripped_text (arrive_box_terminal c) = Ok (arrivalTerminal r)
  /\ extract_price c = Ok (price r).
Proof.
  unfold extract_fields.
  repeat (step_exc; [|discriminate]).
  intros [= <-]. simpl. repeat split; reflexivity.
Qed.





Lemma parse_some c i r :
  _parse_flight_container c i = Ok (Some r) ->
  extract_fields c i = Ok r /\ has_required_field r = true.
Proof.
  unfold _parse_flight_container.
  destruct (extract_fields c i) as [r'|e]; simpl; [|discriminate].
  destruct (has_required_field r') eqn:Hr; simpl; [|discriminate].
  by intros [= <-].
Qed.





(** ** The incremental loader *)

(** The log of the loop: at most one report per round number offered, a
    report that shows the cap reached is the last one, and the last report
    shows the size of the cache the loop leaves. *)
Lemma scroll_rounds_log rounds page same prev_count prev_height st :
  let result := scroll_rounds rounds page same prev_count prev_height st in
  (length (snd result) <= length rounds)%nat
  /\ round_no <$> snd result = take (length (snd result)) rounds
  /\ (forall j report,
        snd result !! j = Some report ->
        (flight_cap <= collected report)%nat -> S j = length (snd result))
  /\ (forall report,
        last (snd result) = Some report ->
        collected report = length (_scrolled_flights (fst result)))
  /\ (snd result = [] -> fst result = st).
Proof.
  revert same prev_count prev_height st.
  induction rounds as [|i rounds IH]; intros same prev_count prev_height st.
  - simpl. repeat split; [lia|done|done].
  - cbn [scroll_rounds].
    assert (forall (st1 : collector) (report : round_report),
      round_no report = i ->
      collected report = length (_scrolled_flights st1) ->
      let result := (st1, [report]) in
      (length (snd result) <= length (i :: rounds))%nat
      /\ round_no <$> snd result = take (length (snd result)) (i :: rounds)
      /\ (forall j r, snd result !! j = Some r ->
             (flight_cap <= collected r)%nat -> S j = length (snd result))
      /\ (forall r, last (snd result) = Some r ->
             collected r = length (_scrolled_flights (fst result)))
      /\ (snd result = [] -> fst result = st))
      as Hone.
    { intros st1 report Hi Hc. simpl. split; [lia|]. split; [by rewrite Hi|].
      split; [|split].
      - intros [|j] r Hj; [done|]. destruct j; simpl in Hj; discriminate.
      - by intros r [= <-].
      - discriminate. }
    destruct (query_items (flight_items (page i))) as [flight_elements|e];
      [|by apply Hone].
    destruct (_collect_visible_flights (visible_items (page i)) st)
      as [st' new].
    destruct (flight_cap <=? length (_scrolled_flights st'))%nat eqn:Hcap;
      [by apply Hone|].
    apply Nat.leb_gt in Hcap.
    destruct (if (new =? 0)%nat && (scrollHeight (page i) =? prev_height)%Z
                 && (length flight_elements <=? prev_count)%nat
              then (S same, prev_count, prev_height)
              else (O, Nat.max prev_count (length flight_elements),
                    scrollHeight (page i)))
      as [[same' prev_count'] prev_height'].
    destruct (stable_rounds <=? same')%nat; [by apply Hone|].
    specialize (IH same' prev_count' prev_height' st').
    destruct (scroll_rounds rounds page same' prev_count' prev_height' st')
      as [st'' reports] eqn:Hrest.
    simpl in IH. destruct IH as (IH1 & IH2 & IH3 & IH4 & IH5). simpl.
    split; [lia|]. split; [f_equal; exact IH2|]. split; [|split].
    + intros [|j] r Hj Hr; simpl in Hj.
      * injection Hj as <-. simpl in Hr. lia.
      * f_equal. by apply (IH3 j r).
    + destruct reports as [|report reports]; [|exact IH4].
      intros r [= <-]. simpl. by rewrite IH5.
    + discriminate.
Qed.

(** C4: whatever the page does, the scroll loop begins at most
    [max_rounds] = 5 rounds, numbered from 1, and a round at whose end the
    deduplicated records number 30 or more is the last one; the last
    report shows the number of records the loop leaves. *)
Theorem loader_bounded :
  forall page st,
    let result := _intelligent_scroll_for_content page st in
    max_rounds = 5%nat
    /\ (length (snd result) <= max_rounds)%nat
    /\ round_no <$> snd result = seq 1 (length (snd result))
    /\ (forall j report,
          snd result !! j = Some report ->
          (30 <= collected report)%nat -> S j = length (snd result))
    /\ (forall report,
          last (snd result) = Some report ->
          collected report = length (_scrolled_flights (fst result))).
Proof.
  intros page st result. split; [reflexivity|].
  unfold _intelligent_scroll_for_content in result. subst result.
  destruct (scroll_rounds_log (seq 1 max_rounds) page 0 0 0%Z st)
    as (H1 & H2 & H3 & H4 & _).
  revert H1 H2 H3 H4.
  generalize (scroll_rounds (seq 1 max_rounds) page 0 0 0%Z st).
  intros [st' log] H1 H2 H3 H4. cbn [fst snd] in *. rewrite length_seq in H1.
  split; [exact H1|]. split; [|by split].
  rewrite H2. unfold max_rounds in *.
  destruct (length log) as [|[|[|[|[|[|n]]]]]]; try reflexivity. lia.
Qed.

Lemma loader_bounded_witness :
  snd (_intelligent_scroll_for_content (still_page thirty_containers)
         empty_collector) !! 0%nat
  = Some (RoundReport 1 (Some 30%nat) 30 30)
  /\ 1%nat = length (snd (_intelligent_scroll_for_content
                            (still_page thirty_containers) empty_collector)).
Proof.
  split; [vm_compute; reflexivity|].
  refine (proj1 (proj2 (proj2 (proj2 (loader_bounded
            (still_page thirty_containers) empty_collector))))
            0%nat (RoundReport 1 (Some 30%nat) 30 30) _ _).
  - vm_compute; reflexivity.
  - simpl. lia.
Defined.

(** A page with two flights that never grows is left after four rounds:
    one that finds the flights and three that find nothing new. *)
Example loader_stops_when_stable :
  snd (_intelligent_scroll_for_content
         (still_page [numbered_container 0; numbered_container 1])
         empty_collector)
  = [ RoundReport 1 (Some 2%nat) 2 2; RoundReport 2 (Some 2%nat) 0 2;
      RoundReport 3 (Some 2%nat) 0 2; RoundReport 4 (Some 2%nat) 0 2 ].
Proof. vm_compute; reflexivity. Qed.

(** ** The deduplicator across the scroll rounds and the final pass *)

Lemma collect_containers_fold cs i st n :
  fst (collect_containers cs i st n) = fold_left collect_step (parsed cs i) st.
Proof.
  revert i st n. induction cs as [|c cs IH]; intros i st n; simpl; [done|].
  destruct (_parse_flight_container c (i + 1)) as [[info|]|e]; simpl; try apply IH.
  unfold collect_step at 2.
  destruct (collect_record st info) as [st' is_new]. apply IH.
Qed.

Lemma final_containers_fold cs i flights keys :
  final_containers cs i flights keys
  = fold_left final_step (parsed cs i) (flights, keys).
Proof.
  revert i flights keys.
  induction cs as [|c cs IH]; intros i flights keys; simpl; [done|].
  destruct (_parse_flight_container c (i + 1)) as [[info|]|e]; simpl; try apply IH.
  unfold final_step at 2. simpl.
  destruct (final_record flights keys info) as [flights' keys']. apply IH.
Qed.

Lemma collect_visible_fold q st :
  fst (_collect_visible_flights q st)
  = fold_left collect_step (query_records q) st.
Proof.
  unfold _collect_visible_flights, query_records.
  destruct (query_items q); [apply collect_containers_fold | done].
Qed.

(** The cache after the loop is the fold of the deduplicator over the
    records offered in the rounds of its log. *)
Lemma scroll_rounds_fold rounds page same prev_count prev_height st :
  fst (scroll_rounds rounds page same prev_count prev_height st)
  = fold_left collect_step
      (scroll_offers page
         (snd (scroll_rounds rounds page same prev_count prev_height st)))
      st.
Proof.
  revert same prev_count prev_height st.
  induction rounds as [|i rounds IH]; intros same prev_count prev_height st;
    [done|].
  cbn [scroll_rounds].
  destruct (query_items (flight_items (page i))) as [flight_elements|e];
    [|done].
  pose proof (collect_visible_fold (visible_items (page i)) st) as Hc.
  destruct (_collect_visible_flights (visible_items (page i)) st)
    as [st' new]. simpl in Hc.
  assert (forall n, st' = fold_left collect_step
            (scroll_offers page
               [RoundReport i (Some (length flight_elements)) new n]) st)
    as Hone.
  { intros n. unfold scroll_offers. simpl. by rewrite app_nil_r. }
  destruct (flight_cap <=? length (_scrolled_flights st'))%nat; [apply Hone|].
  destruct (if (new =? 0)%nat && (scrollHeight (page i) =? prev_height)%Z
               && (length flight_elements <=? prev_count)%nat
            then (S same, prev_count, prev_height)
            else (O, Nat.max prev_count (length flight_elements),
                  scrollHeight (page i)))
    as [[same' prev_count'] prev_height'].
  destruct (stable_rounds <=? same')%nat; [apply Hone|].
  specialize (IH same' prev_count' prev_height' st').
  destruct (scroll_rounds rounds page same' prev_count' prev_height' st')
    as [st'' reports].
  simpl in *. unfold scroll_offers in *. simpl.
  rewrite fold_left_app, <- Hc. exact IH.
Qed.

Lemma fold_collect_first_seen offers st :
  fold_left collect_step offers st
  = Collector
      (_scrolled_flights st
       ++ first_seen (_scrolled_flight_keys st) (List.filter has_key offers))
      (seen_after (_scrolled_flight_keys st) (List.filter has_key offers)).
Proof.
  revert st. induction offers as [|info offers IH]; intros [flights keys].
  - simpl. by rewrite app_nil_r.
  - cbn [fold_left List.filter]. rewrite IH. clear IH.
    unfold collect_step, collect_record, has_key. simpl.
    destruct (truthy (_make_flight_key info)) eqn:Hk; simpl; [|done].
    rewrite Hk. simpl.
    destruct (bool_decide (_make_flight_key info ∈ keys)); simpl; [done|].
    by rewrite <- app_assoc.
Qed.

Lemma fold_final_first_seen offers flights keys :
  fold_left final_step offers (flights, keys)
  = (flights ++ first_seen keys (List.filter has_flight_number offers),
     seen_after keys (List.filter has_flight_number offers)).
Proof.
  revert flights keys.
  induction offers as [|info offers IH]; intros flights keys.
  - simpl. by rewrite app_nil_r.
  - cbn [fold_left List.filter]. unfold final_step at 2, final_record. simpl.
    destruct (has_flight_number info); simpl; [|apply IH].
    destruct (truthy (_make_flight_key info)); simpl.
    + destruct (bool_decide (_make_flight_key info ∈ keys)); simpl;
        rewrite IH; [done|]. by rewrite <- app_assoc.
    + rewrite IH. by rewrite <- app_assoc.
Qed.

Lemma first_seen_app seen a b :
  first_seen seen (a ++ b)
  = first_seen seen a ++ first_seen (seen_after seen a) b.
Proof.
  revert seen. induction a as [|info a IH]; intros seen; simpl; [done|].
  destruct (truthy (_make_flight_key info)); simpl; [|by rewrite IH].
  destruct (bool_decide (_make_flight_key info ∈ seen)); simpl; by rewrite IH.
Qed.

Lemma key_set_index i r : _make_flight_key (set_index i r) = _make_flight_key r.
Proof. reflexivity. Qed.

Lemma erase_renumbering (l : list flight_info) (f : nat -> nat) :
  set_index 0 <$> imap (fun i r => set_index (f i) r) l = set_index 0 <$> l.
Proof.
  revert f. induction l as [|r l IH]; intros f; [done|].
  simpl. f_equal. apply (IH (f ∘ S)).
Qed.

Lemma keys_erase_index (l : list flight_info) :
  _make_flight_key <$> (set_index 0 <$> l) = _make_flight_key <$> l.
Proof. rewrite <- list_fmap_compose. by apply list_fmap_ext. Qed.

(** The merged set, indices apart, is what first-seen-wins keeps of the
    candidates. *)
Lemma merged_is_first_seen page :
  set_index 0 <$> merged_flights page
  = set_index 0 <$> first_seen ∅ (candidates page).
Proof.
  unfold merged_flights, candidates, _intelligent_scroll_for_content.
  rewrite scroll_rounds_fold, fold_collect_first_seen.
  generalize (List.filter has_key
    (scroll_offers (scroll_round page)
       (snd (scroll_rounds (seq 1 max_rounds) (scroll_round page) 0 0 0%Z
               empty_collector)))).
  intros so. rewrite first_seen_app.
  unfold _parse_flights, final_offers, query_records.
  cbn [_scrolled_flights _scrolled_flight_keys empty_collector app].
  destruct (body_wrapper (final_pass page)) as [[|]|e];
    try (cbn [List.filter first_seen]; by rewrite app_nil_r).
  destruct (query_items (wrapped_items (final_pass page))) as [[|c cs]|e];
    try (cbn [List.filter first_seen parsed]; by rewrite app_nil_r).
  rewrite final_containers_fold, fold_final_first_seen.
  cbn [fst]. unfold renumber. apply erase_renumbering.
Qed.

Lemma not_seen_weaken (k k' : pystr) (seen : gset pystr) :
  k ∉ {[k']} ∪ seen -> (k ∉ seen) /\ k <> k'.
Proof.
  intros H. split.
  - intros Hs. apply H, elem_of_union. by right.
  - intros ->. apply H, elem_of_union. left. by apply elem_of_singleton.
Qed.

(** What is kept has each key once, and no key seen before. *)
Lemma first_seen_keyed seen offers :
  NoDup (keyed (first_seen seen offers))
  /\ forall k, k ∈ keyed (first_seen seen offers) -> k ∉ seen.
Proof.
  unfold keyed. revert seen.
  induction offers as [|info offers IH]; intros seen; simpl.
  - split; [constructor | intros k Hk; by apply elem_of_nil in Hk].
  - destruct (truthy (_make_flight_key info)) eqn:Hk; simpl.
    + destruct (bool_decide (_make_flight_key info ∈ seen)) eqn:Hs; [apply IH|].
      apply bool_decide_eq_false in Hs.
      destruct (IH ({[_make_flight_key info]} ∪ seen)) as [Hnd Hnew].
      simpl. rewrite Hk. split.
      * constructor; [|exact Hnd]. intros Hin.
        apply Hnew, not_seen_weaken in Hin as [_ Hin]. done.
      * intros k [->|Hin]%elem_of_cons; [done|].
        by apply Hnew, not_seen_weaken in Hin as [Hin _].
    + rewrite Hk. apply IH.
Qed.

(** What is kept is the first candidate with its key. *)
Lemma first_seen_first seen offers r :
  r ∈ first_seen seen offers ->
  exists before after,
    offers = before ++ r :: after
    /\ (has_key r = true ->
        (_make_flight_key r ∉ seen)
        /\ Forall (fun c => _make_flight_key c <> _make_flight_key r) before).
Proof.
  unfold has_key. revert seen.
  induction offers as [|info offers IH]; intros seen; simpl.
  - intros H. by apply elem_of_nil in H.
  - destruct (truthy (_make_flight_key info)) eqn:Hk.
    + destruct (bool_decide (_make_flight_key info ∈ seen)) eqn:Hs.
      * apply bool_decide_eq_true in Hs. intros Hr.
        destruct (IH _ Hr) as (before & after & -> & H).
        exists (info :: before), after. split; [done|].
        intros Hkr. destruct (H Hkr) as [Hns Hb]. split; [done|].
        constructor; [|done]. intros Heq. rewrite Heq in Hs. done.
      * apply bool_decide_eq_false in Hs.
        intros [->|Hr]%elem_of_cons.
        -- exists [], offers. split; [done|]. intros _. split; [done|constructor].
        -- destruct (IH _ Hr) as (before & after & -> & H).
           exists (info :: before), after. split; [done|].
           intros Hkr. destruct (H Hkr) as [Hns Hb].
           apply not_seen_weaken in Hns as [Hns Hne].
           split; [done|]. constructor; [congruence|done].
    + intros [->|Hr]%elem_of_cons.
      * exists [], offers. split; [done|]. intros Hkr. congruence.
      * destruct (IH _ Hr) as (before & after & -> & H).
        exists (info :: before), after. split; [done|].
        intros Hkr. destruct (H Hkr) as [Hns Hb]. split; [done|].
        constructor; [|done]. intros Heq. congruence.
Qed.

(** Every key among the candidates that was not seen before is kept. *)
Lemma first_seen_keeps seen offers c :
  c ∈ offers -> has_key c = true -> _make_flight_key c ∉ seen ->
  exists r, r ∈ first_seen seen offers /\ _make_flight_key r = _make_flight_key c.
Proof.
  unfold has_key. revert seen.
  induction offers as [|info offers IH]; intros seen Hc Hk Hs.
  - by apply elem_of_nil in Hc.
  - simpl.
    destruct (decide (_make_flight_key info = _make_flight_key c)) as [Heq|Hne].
    + rewrite Heq, Hk. rewrite bool_decide_eq_false_2 by done.
      exists info. split; [left|done].
    + apply elem_of_cons in Hc as [->|Hc]; [done|].
      destruct (truthy (_make_flight_key info)).
      * destruct (bool_decide (_make_flight_key info ∈ seen)).
        -- by apply IH.
        -- destruct (IH ({[_make_flight_key info]} ∪ seen) Hc Hk) as (r & Hr & Hkr).
           { intros [Hin|Hin]%elem_of_union; [|done].
             apply elem_of_singleton in Hin. congruence. }
           exists r. split; [by right|done].
      * destruct (IH seen Hc Hk Hs) as (r & Hr & Hkr).
        exists r. split; [by right|done].
Qed.

Lemma keyed_erase_index (l : list flight_info) :
  keyed (set_index 0 <$> l) = keyed l.
Proof. unfold keyed. by rewrite keys_erase_index. Qed.

(** C3, as the code has it: the merged set is what first-seen-wins keeps
    of the candidates, where a record is a candidate when a scroll round
    sees it and it has a key, or when the final pass sees it and it has a
    flight number.  So no non-empty key occurs twice in the merged set, the
    record kept for a key is the first candidate with that key, and every
    key of a candidate has its record. *)
Theorem merged_first_seen_wins :
  forall page,
    set_index 0 <$> merged_flights page
    = set_index 0 <$> first_seen ∅ (candidates page)
    /\ NoDup (keyed (merged_flights page))
    /\ (forall r,
          r ∈ merged_flights page -> has_key r = true ->
          exists before first after,
            candidates page = before ++ first :: after
            /\ set_index 0 first = set_index 0 r
            /\ Forall (fun c => _make_flight_key c <> _make_flight_key r) before)
    /\ (forall c,
          c ∈ candidates page -> has_key c = true ->
          exists r,
            r ∈ merged_flights page /\ _make_flight_key r = _make_flight_key c).
Proof.
  intros page. pose proof (merged_is_first_seen page) as Heq.
  split; [exact Heq|]. split; [|split].
  - rewrite <- keyed_erase_index, Heq, keyed_erase_index.
    apply first_seen_keyed.
  - intros r Hr Hk.
    assert (set_index 0 r ∈ set_index 0 <$> first_seen ∅ (candidates page))
      as Hin by (rewrite <- Heq; by apply list_elem_of_fmap_2).
    apply list_elem_of_fmap in Hin as (first & Hfirst & Hin).
    destruct (first_seen_first _ _ _ Hin) as (before & after & Hc & H).
    exists before, first, after. split; [done|]. split; [done|].
    assert (_make_flight_key first = _make_flight_key r) as Hkey.
    { rewrite <- (key_set_index 0 first), <- (key_set_index 0 r). by f_equal. }
    rewrite <- Hkey. apply H. unfold has_key in *. by rewrite Hkey.
  - intros c Hc Hk.
    destruct (first_seen_keeps ∅ _ c Hc Hk) as (r' & Hr' & Hkey);
      [apply not_elem_of_empty|].
    assert (set_index 0 r' ∈ set_index 0 <$> merged_flights page) as Hin
      by (rewrite Heq; by apply list_elem_of_fmap_2).
    apply list_elem_of_fmap in Hin as (r & Hr & Hin).
    exists r. split; [done|].
    rewrite <- Hkey, <- (key_set_index 0 r), <- (key_set_index 0 r').
    by f_equal.
Qed.

Lemma merged_first_seen_wins_witness :
  candidates page_with_two_fares
  = [ fare 1 (py "¥500"); fare 2 (py "¥450"); fare 1 (py "¥500");
      fare 2 (py "¥450"); fare 1 (py "¥500"); fare 2 (py "¥450");
      fare 1 (py "¥500"); fare 2 (py "¥450"); fare 1 (py "¥500");
      fare 2 (py "¥450") ]
  /\ merged_flights page_with_two_fares = [fare 1 (py "¥500")]
  /\ exists r,
       r ∈ merged_flights page_with_two_fares
       /\ _make_flight_key r = _make_flight_key (fare 2 (py "¥450")).
Proof.
  assert (candidates page_with_two_fares
          = [ fare 1 (py "¥500"); fare 2 (py "¥450"); fare 1 (py "¥500");
              fare 2 (py "¥450"); fare 1 (py "¥500"); fare 2 (py "¥450");
              fare 1 (py "¥500"); fare 2 (py "¥450"); fare 1 (py "¥500");
              fare 2 (py "¥450") ])
    as Hc by (vm_compute; reflexivity).
  split; [exact Hc|]. split; [vm_compute; reflexivity|].
  refine (proj2 (proj2 (proj2 (merged_first_seen_wins page_with_two_fares)))
            (fare 2 (py "¥450")) _ _).
  - rewrite Hc. apply elem_of_cons; right. apply elem_of_cons. by left.
  - vm_compute; reflexivity.
Defined.

(** C3 as stated fails: two records with the same non-empty key are
    extracted, and the merged set holds none of them. *)
Lemma same_key_no_record_counterexample :
  final_offers (final_pass page_with_late_arrivals)
  = [ FlightInfo 1 None None (Some (py "08:00")) None None None None None
        (Some (py "¥500"));
      FlightInfo 2 None None (Some (py "08:00")) None None None None None
        (Some (py "¥600")) ]
  /\ _make_flight_key <$> final_offers (final_pass page_with_late_arrivals)
     = [py "08:00"; py "08:00"]
  /\ merged_flights page_with_late_arrivals = [].
Proof. repeat split; vm_compute; reflexivity. Qed.

(** ** Records without a key *)

Lemma candidates_identified page c :
  c ∈ candidates page -> has_key c || has_flight_number c = true.
Proof.
  unfold candidates. intros [H|H]%elem_of_app;
    apply list_elem_of_In, List.filter_In in H as [_ H]; rewrite H;
    [done | apply orb_true_r].
Qed.

Lemma merged_among_candidates page r :
  r ∈ merged_flights page ->
  exists c, c ∈ candidates page /\ set_index 0 c = set_index 0 r.
Proof.
  intros Hr.
  assert (set_index 0 r ∈ set_index 0 <$> first_seen ∅ (candidates page))
    as Hin by (rewrite <- merged_is_first_seen; by apply list_elem_of_fmap_2).
  apply list_elem_of_fmap in Hin as (c & Hc & Hin).
  destruct (first_seen_first _ _ _ Hin) as (before & after & Heq & _).
  exists c. split; [|done]. rewrite Heq.
  apply elem_of_app. right. by left.
Qed.

(** C1, as the code has it: a record whose key is empty is passed over by
    the collector of the scroll rounds, which stores nothing and counts
    nothing new; the final pass stores a record only when it has a flight
    number; a record with none of the six identifying fields has neither a
    key nor a flight number.  So every record of the merged set has a key
    or a flight number, and a record without identifying fields is never
    among them. *)
Theorem unkeyed_records_skipped :
  forall page r,
    (has_key r = false -> forall st, collect_record st r = (st, false))
    /\ (has_flight_number r = false ->
        forall flights keys, final_record flights keys r = (flights, keys))
    /\ (flightNumber r = None -> departureTime r = None ->
        arrivalTime r = None -> departureAirport r = None ->
        arrivalAirport r = None -> airline r = None ->
        _make_flight_key r = [] /\ has_key r = false
        /\ has_flight_number r = false)
    /\ (r ∈ merged_flights page -> has_key r || has_flight_number r = true).
Proof.
  intros page r. split; [|split; [|split]].
  - unfold has_key, collect_record. by intros ->.
  - unfold final_record. by intros ->.
  - unfold has_key, has_flight_number, _make_flight_key.
    by intros -> -> -> -> -> ->.
  - intros Hr. destruct (merged_among_candidates _ _ Hr) as (c & Hc & Heq).
    apply candidates_identified in Hc.
    assert (has_key c = has_key r) as <-.
    { change (has_key (set_index 0 c) = has_key (set_index 0 r)). by rewrite Heq. }
    assert (has_flight_number c = has_flight_number r) as <-.
    { change (has_flight_number (set_index 0 c)
              = has_flight_number (set_index 0 r)). by rewrite Heq. }
    exact Hc.
Qed.

Lemma unkeyed_records_skipped_witness :
  fare 1 (py "¥500") ∈ merged_flights page_with_two_fares
  /\ has_key (fare 1 (py "¥500")) || has_flight_number (fare 1 (py "¥500"))
     = true.
Proof.
  assert (fare 1 (py "¥500") ∈ merged_flights page_with_two_fares) as Hin.
  { replace (merged_flights page_with_two_fares) with [fare 1 (py "¥500")]
      by (vm_compute; reflexivity).
    apply elem_of_cons. by left. }
  split; [exact Hin|].
  exact (proj2 (proj2 (proj2 (unkeyed_records_skipped page_with_two_fares
                                (fare 1 (py "¥500"))))) Hin).
Defined.

(** C1 as stated fails: a record is extracted, its key is empty, and it is
    neither counted as new nor put into the merged set. *)
Lemma empty_key_dropped_counterexample :
  _parse_flight_container (price_only (py "¥500")) 1
  = Ok (Some (priced 1 (py "¥500")))
  /\ _make_flight_key (priced 1 (py "¥500")) = []
  /\ _collect_visible_flights (items [price_only (py "¥500")]) empty_collector
     = (empty_collector, 0%nat)
  /\ merged_flights page_with_price_only = [].
Proof. repeat split; vm_compute; reflexivity. Qed.

(** * Further properties of the code *)

Lemma Ok_inj {A} (a b : A) : Ok a = Ok b -> a = b.
Proof. by intros [= ->]. Qed.

(** ** What the extractor puts into a record *)

Lemma lstrip_starts_clean s : starts_clean (lstrip s) = true.
Proof.
  induction s as [|c s IH]; simpl; [done|].
  destruct (isspace_char c) eqn:Hc; [exact IH|]. simpl. by rewrite Hc.
Qed.

Lemma lstrip_clean s : starts_clean s = true -> lstrip s = s.
Proof.
  destruct s as [|c s]; simpl; [done|].
  by destruct (isspace_char c).
Qed.

Lemma lstrip_suffix s : exists spaces, s = spaces ++ lstrip s.
Proof.
  induction s as [|c s [spaces IH]]; simpl; [by exists []|].
  destruct (isspace_char c); [|by exists []].
  exists (c :: spaces). simpl. by rewrite <- IH.
Qed.

Lemma starts_clean_app_l s t :
  starts_clean (s ++ t) = true -> s <> [] -> starts_clean s = true.
Proof. destruct s; [done|]. by simpl. Qed.

(** [strip] leaves no white space at either end. *)
Lemma strip_edge_clean s : edge_clean (strip s) = true.
Proof.
  unfold edge_clean, strip. rewrite reverse_involutive.
  rewrite lstrip_starts_clean, andb_true_r.
  pose proof (lstrip_starts_clean s) as Hu.
  destruct (lstrip_suffix (reverse (lstrip s))) as [spaces Hv].
  destruct (lstrip (reverse (lstrip s))) as [|c v]; [done|].
  apply (f_equal reverse) in Hv.
  rewrite reverse_involutive, reverse_app in Hv.
  rewrite Hv in Hu.
  apply starts_clean_app_l in Hu; [done|].
  intros Hnil. apply (f_equal length) in Hnil.
  rewrite length_reverse in Hnil. discriminate.
Qed.

(** A text without white space at its ends is left as it is. *)
Lemma strip_fixed s : edge_clean s = true -> strip s = s.
Proof.
  unfold edge_clean, strip. intros [H1 H2]%andb_prop.
  by rewrite (lstrip_clean s H1), (lstrip_clean _ H2), reverse_involutive.
Qed.

Lemma stripped_text_clean l v :
  stripped_text l = Ok (Some v) -> edge_clean v = true /\ strip v = v.
Proof.
  unfold stripped_text. destruct (_safe_ele l) as [e|]; [|discriminate].
  destruct (text e) as [t|m]; simpl; [|discriminate].
  intros [= <-]. split; [apply strip_edge_clean|].
  apply strip_fixed, strip_edge_clean.
Qed.

(** The airline, the departure time, the two airports and the two
    terminals of an extracted record are stored stripped: none of them
    begins or ends with white space. *)
Theorem extracted_texts_are_stripped :
  forall c i r v,
    _parse_flight_container c i = Ok (Some r) ->
    airline r = Some v \/ departureTime r = Some v
    \/ departureAirport r = Some v \/ departureTerminal r = Some v
    \/ arrivalAirport r = Some v \/ arrivalTerminal r = Some v ->
    edge_clean v = true /\ strip v = v.
Proof.
  intros c i r v Hr Hv. apply parse_some in Hr as [Hr _].
  apply extract_fields_ok in Hr
    as (_ & Ha & _ & Hdt & Hdn & Hdx & _ & Han & Hax & _).
  destruct Hv as [Hv|[Hv|[Hv|[Hv|[Hv|Hv]]]]]; rewrite Hv in *;
    eapply stripped_text_clean; eassumption.
Qed.

Lemma extracted_texts_are_stripped_witness :
  _parse_flight_container
    (Container (shown (py "  东方航空 ")) (shown (py "MU6863")) absent absent
       (shown (py " 08:00")) absent absent absent absent absent absent
       (Ok None)) 1
  = Ok (Some (FlightInfo 1 (Some (py "东方航空")) (Some (py "MU6863"))
                (Some (py "08:00")) None None None None None None))
  /\ edge_clean (py "东方航空") = true
  /\ strip (py "东方航空") = py "东方航空".
Proof.
  assert (_parse_flight_container
            (Container (shown (py "  东方航空 ")) (shown (py "MU6863")) absent
               absent (shown (py " 08:00")) absent absent absent absent absent
               absent (Ok None)) 1
          = Ok (Some (FlightInfo 1 (Some (py "东方航空")) (Some (py "MU6863"))
                        (Some (py "08:00")) None None None None None None)))
    as H by (vm_compute; reflexivity).
  split; [exact H|].
  exact (extracted_texts_are_stripped _ _ _ (py "东方航空") H (or_introl eq_refl)).
Defined.

Lemma first_match_sound r candidates m :
  first_match r candidates = Some m -> matches r m.
Proof.
  induction candidates as [|c candidates IH]; simpl; [discriminate|].
  destruct (re_search r c) as [m'|] eqn:Hc; [|exact IH].
  intros [= <-]. by apply re_search_sound in Hc as [Hc _].
Qed.

Lemma extract_flight_number_shape c f :
  extract_flight_number c = Ok (Some f) -> carrier_and_digits f.
Proof.
  unfold extract_flight_number.
  destruct (match _safe_ele (plane_No c) with
            | Some e => t ← text e; Ok (strip (replace [160] [32] t))
            | None => Ok []
            end) as [plane_text|m]; simpl; [|discriminate].
  destruct (if truthy plane_text
            then re_search flight_number_re plane_text else None)
    as [m|] eqn:Hp.
  { intros [= <-]. destruct (truthy plane_text); [|discriminate].
    apply re_search_sound in Hp as [Hp _]. by apply matches_flight_number. }
  destruct (id_candidate (airlineName_prefixed c)) as [ids1|m]; simpl;
    [|discriminate].
  destruct (id_candidate (comfort_prefixed c)) as [ids2|m]; simpl;
    [|discriminate].
  destruct (first_match flight_number_re (ids1 ++ ids2)) as [m|] eqn:Hi.
  { intros [= <-]. by apply matches_flight_number, (first_match_sound _ _ _ Hi). }
  destruct (container_text c) as [t|m]; simpl; [|discriminate].
  intros [= Ht]. apply re_search_sound in Ht as [Ht _].
  by apply matches_flight_number.
Qed.

(** Whichever of the three sources gave it (the flight-number element, an
    [id] attribute, the text of the container), the flight number of an
    extracted record is a carrier code of two capital letters followed by
    three or four digits, and the record carries the index it was given. *)
Theorem extracted_flight_number_shape :
  forall c i r f,
    _parse_flight_container c i = Ok (Some r) ->
    flightNumber r = Some f ->
    carrier_and_digits f /\ index r = i.
Proof.
  intros c i r f Hr Hf. apply parse_some in Hr as [Hr _].
  apply extract_fields_ok in Hr as (Hi & _ & Hn & _).
  split; [|exact Hi]. rewrite Hf in Hn. by apply (extract_flight_number_shape c).
Qed.

Lemma extracted_flight_number_shape_witness :
  _parse_flight_container
    (container_of (py "MU6863") (py "08:00") (py "¥500")) 3
  = Ok (Some (fare 3 (py "¥500")))
  /\ carrier_and_digits (py "MU6863") /\ index (fare 3 (py "¥500")) = 3%nat.
Proof.
  assert (_parse_flight_container
            (container_of (py "MU6863") (py "08:00") (py "¥500")) 3
          = Ok (Some (fare 3 (py "¥500")))) as H by (vm_compute; reflexivity).
  split; [exact H|].
  exact (extracted_flight_number_shape _ _ _ (py "MU6863") H eq_refl).
Defined.

Lemma first_digit_run_decimal t digits :
  first_digit_run t = Some digits ->
  digits <> [] /\ forallb isdecimal_char digits = true.
Proof.
  induction t as [|c t IH]; simpl; [discriminate|].
  destruct (isdecimal_char c) eqn:Hc; [|exact IH].
  intros [= <-]. split; [done|]. simpl. rewrite Hc. simpl.
  clear. induction t as [|d t IH]; simpl; [done|].
  destruct (isdecimal_char d) eqn:Hd; simpl; [by rewrite Hd|done].
Qed.

(** The price of an extracted record comes from the text of the price
    element, stripped, and always shows the currency sign: when that text
    has the sign it is the price, otherwise the price is the sign put
    before the first run of digits of that text. *)
Theorem extracted_price_has_currency_sign :
  forall c i r p,
    _parse_flight_container c i = Ok (Some r) ->
    price r = Some p ->
    contains (py "¥") p = true
    /\ exists e t,
         price_span c = found e /\ text e = Ok t
         /\ normalize_price (strip t) = Some p
         /\ (contains (py "¥") (strip t) = true /\ p = strip t
             \/ contains (py "¥") (strip t) = false
                /\ exists digits,
                     p = py "¥" ++ digits /\ digits <> []
                     /\ forallb isdecimal_char digits = true
                     /\ first_digit_run (strip t) = Some digits).
Proof.
  intros c i r p Hr Hp. apply parse_some in Hr as [Hr _].
  apply extract_fields_ok in Hr as (_ & _ & _ & _ & _ & _ & _ & _ & _ & He).
  rewrite Hp in He. unfold extract_price in He.
  destruct (price_span c) as [e| |m] eqn:Hspan;
    [|simpl in He; discriminate He..].
  change (_safe_ele (found e)) with (Some e) in He. cbn beta iota in He.
  destruct (text e) as [t|m] eqn:Ht; rewrite ?Ht in He; simpl in He;
    [|discriminate He].
  apply Ok_inj in He. pose proof He as Hn. unfold normalize_price in He.
  destruct (contains (py "¥") (strip t)) eqn:Hc.
  - injection He as <-. split; [exact Hc|].
    exists e, t. repeat split; try done. by left.
  - rewrite search_digits in He.
    destruct (first_digit_run (strip t)) as [digits|] eqn:Hd; [|discriminate].
    injection He as <-. split; [reflexivity|].
    exists e, t. split; [done|]. split; [done|]. split; [exact Hn|].
    right. split; [done|]. exists digits.
    destruct (first_digit_run_decimal _ _ Hd) as [Hne Hdec]. by repeat split.
Qed.

Lemma extracted_price_has_currency_sign_witness :
  _parse_flight_container (price_only (py " 1200起 ")) 1
  = Ok (Some (priced 1 (py "¥1200")))
  /\ contains (py "¥") (py "¥1200") = true.
Proof.
  assert (_parse_flight_container (price_only (py " 1200起 ")) 1
          = Ok (Some (priced 1 (py "¥1200")))) as H
    by (vm_compute; reflexivity).
  split; [exact H|].
  exact (proj1 (extracted_price_has_currency_sign _ _ _ (py "¥1200") H eq_refl)).
Defined.

(** ** The identity key *)

Lemma starts_with_bar c s : starts_with [124] (c :: s) = (c =? 124).
Proof.
  cbn [starts_with]. by rewrite andb_true_r, N.eqb_sym.
Qed.

Lemma lstrip_bar_starts s : starts_with [124] (lstrip_bar s) = false.
Proof.
  induction s as [|c s IH]; [done|]. cbn [lstrip_bar].
  destruct (c =? 124) eqn:Hc; [exact IH|]. by rewrite starts_with_bar.
Qed.

Lemma lstrip_bar_suffix s : exists bars, s = bars ++ lstrip_bar s.
Proof.
  induction s as [|c s [bars IH]]; simpl; [by exists []|].
  destruct (c =? 124); [|by exists []].
  exists (c :: bars). simpl. by rewrite <- IH.
Qed.

Lemma starts_with_bar_app s t :
  s <> [] -> starts_with [124] (s ++ t) = starts_with [124] s.
Proof. destruct s; [done|]. by simpl. Qed.

Lemma strip_bar_edges s :
  starts_with [124] (strip_bar s) = false
  /\ starts_with [124] (reverse (strip_bar s)) = false.
Proof.
  unfold strip_bar. rewrite reverse_involutive. split; [|apply lstrip_bar_starts].
  pose proof (lstrip_bar_starts s) as Hu.
  destruct (lstrip_bar_suffix (reverse (lstrip_bar s))) as [bars Hv].
  destruct (lstrip_bar (reverse (lstrip_bar s))) as [|c v]; [done|].
  apply (f_equal reverse) in Hv.
  rewrite reverse_involutive, reverse_app in Hv.
  rewrite Hv, starts_with_bar_app in Hu; [done|].
  intros Hnil. apply (f_equal length) in Hnil.
  rewrite length_reverse in Hnil. discriminate.
Qed.

(** The key of a record never begins and never ends with the separator,
    and it is made of the six identifying fields only: the index, the two
    terminals and the price do not enter it. *)
Theorem flight_key_has_clean_ends :
  forall r,
    starts_with [124] (_make_flight_key r) = false
    /\ starts_with [124] (reverse (_make_flight_key r)) = false
    /\ (forall i dt at_ p,
          _make_flight_key
            (FlightInfo i (airline r) (flightNumber r) (departureTime r)
               (departureAirport r) dt (arrivalTime r) (arrivalAirport r)
               at_ p)
          = _make_flight_key r).
Proof.
  intros r. destruct (strip_bar_edges (join_bar (key_fields r))) as [H1 H2].
  split; [exact H1|]. split; [exact H2|]. reflexivity.
Qed.

Lemma only_bars_app s t : only_bars (s ++ t) = only_bars s && only_bars t.
Proof. unfold only_bars. apply forallb_app. Qed.

Lemma lstrip_bar_nil s : lstrip_bar s = [] <-> only_bars s = true.
Proof.
  induction s as [|c s IH]; simpl; [done|].
  destruct (c =? 124); simpl; [exact IH|]. split; discriminate.
Qed.

Lemma only_bars_reverse s : only_bars (reverse s) = only_bars s.
Proof.
  induction s as [|c s IH]; [done|].
  rewrite reverse_cons, only_bars_app, IH. simpl.
  rewrite andb_true_r. apply andb_comm.
Qed.

Lemma lstrip_bar_only_bars s : only_bars (lstrip_bar s) = only_bars s.
Proof.
  induction s as [|c s IH]; simpl; [done|].
  destruct (c =? 124) eqn:Hc; simpl; [exact IH|]. by rewrite Hc.
Qed.

Lemma strip_bar_nil s : truthy (strip_bar s) = negb (only_bars s).
Proof.
  unfold strip_bar.
  destruct (only_bars s) eqn:Hs.
  - apply lstrip_bar_nil in Hs. rewrite Hs. reflexivity.
  - destruct (reverse (lstrip_bar (reverse (lstrip_bar s)))) as [|c v] eqn:Hv;
      [|done].
    apply (f_equal reverse) in Hv. rewrite reverse_involutive in Hv.
    apply lstrip_bar_nil in Hv.
    by rewrite only_bars_reverse, lstrip_bar_only_bars, Hs in Hv.
Qed.

Lemma only_bars_join parts :
  only_bars (join_bar parts) = forallb only_bars parts.
Proof.
  induction parts as [|p parts IH]; [done|].
  destruct parts as [|q parts]; [simpl; by rewrite andb_true_r|].
  change (join_bar (p :: q :: parts)) with (p ++ 124 :: join_bar (q :: parts)).
  rewrite only_bars_app.
  change (forallb only_bars (p :: q :: parts))
    with (only_bars p && forallb only_bars (q :: parts)).
  rewrite <- IH. reflexivity.
Qed.

Lemma has_key_spec r : has_key r = negb (forallb only_bars (key_fields r)).
Proof.
  unfold has_key, _make_flight_key.
  rewrite strip_bar_nil. f_equal. apply only_bars_join.
Qed.

(** A record has a key exactly when one of its six identifying fields
    holds a character other than the separator; missing fields, empty
    fields and fields made of separators give the empty key. *)
Theorem flight_key_empty_iff :
  forall r, has_key r = negb (forallb only_bars (key_fields r)).
Proof.
  intros r. unfold has_key, _make_flight_key.
  rewrite strip_bar_nil. f_equal. apply only_bars_join.
Qed.

Lemma only_bars_false_head c s : c <> 124 -> only_bars (c :: s) = false.
Proof. intros H. simpl. by apply N.eqb_neq in H as ->. Qed.

Lemma flight_number_gives_key c i r :
  _parse_flight_container c i = Ok (Some r) ->
  is_Some (flightNumber r) ->
  has_key r = true /\ has_flight_number r = true.
Proof.
  intros Hr [f Hf].
  destruct (extract_flight_number_shape c f) as (carrier & digits & -> & Hc & Hu & Hd & _).
  { apply parse_some in Hr as [Hr _].
    apply extract_fields_ok in Hr as (_ & _ & Hn & _). by rewrite Hf in Hn. }
  destruct carrier as [|a [|b [|]]]; try discriminate.
  simpl in Hu. apply andb_prop in Hu as [Ha _].
  unfold is_upper in Ha. apply andb_prop in Ha as [Ha1 Ha2].
  apply N.leb_le in Ha1, Ha2.
  split.
  - rewrite has_key_spec. unfold key_fields. rewrite Hf. simpl.
    assert ((a =? 124) = false) as -> by (apply N.eqb_neq; lia). reflexivity.
  - unfold has_flight_number. rewrite Hf. simpl.
    apply negb_true_iff, bool_decide_eq_false. intros Heq.
    assert (a = 26410) by (vm_compute in Heq; congruence). lia.
Qed.

(** An extracted record that has a flight number has a key, so the final
    pass never stores an extracted record without checking its key
    against those already seen. *)
Theorem extracted_flight_number_gives_key :
  forall c i r,
    _parse_flight_container c i = Ok (Some r) ->
    is_Some (flightNumber r) ->
    has_key r = true /\ has_flight_number r = true.
Proof.
  intros c i r Hr [f Hf].
  assert (extract_flight_number c = Ok (Some f)) as Hn.
  { apply parse_some in Hr as [Hr _].
    apply extract_fields_ok in Hr as (_ & _ & Hn & _). by rewrite Hf in Hn. }
  destruct (extract_flight_number_shape c f Hn)
    as (carrier & digits & -> & Hc & Hu & Hd & _).
  destruct carrier as [|a [|b [|]]]; try discriminate.
  simpl in Hu. apply andb_prop in Hu as [Ha _].
  unfold is_upper in Ha. apply andb_prop in Ha as [Ha1 Ha2].
  apply N.leb_le in Ha1, Ha2.
  split.
  - rewrite has_key_spec. unfold key_fields. rewrite Hf. simpl.
    assert ((a =? 124) = false) as -> by (apply N.eqb_neq; lia). reflexivity.
  - unfold has_flight_number. rewrite Hf. simpl.
    apply negb_true_iff, bool_decide_eq_false. intros Heq.
    assert (a = 26410) by (vm_compute in Heq; congruence). lia.
Qed.

Lemma extracted_flight_number_gives_key_witness :
  _parse_flight_container
    (container_of (py "MU6863") (py "08:00") (py "¥500")) 3
  = Ok (Some (fare 3 (py "¥500")))
  /\ has_key (fare 3 (py "¥500")) = true
  /\ has_flight_number (fare 3 (py "¥500")) = true.
Proof.
  assert (_parse_flight_container
            (container_of (py "MU6863") (py "08:00") (py "¥500")) 3
          = Ok (Some (fare 3 (py "¥500")))) as H by (vm_compute; reflexivity).
  split; [exact H|].
  exact (extracted_flight_number_gives_key _ _ _ H (ex_intro _ _ eq_refl)).
Defined.

(** ** The collector of the scroll rounds *)

Lemma collect_record_cases st r :
  (has_key r = true
   /\ (_make_flight_key r ∉ _scrolled_flight_keys st)
   /\ collect_record st r
      = (Collector (_scrolled_flights st ++ [r])
           ({[_make_flight_key r]} ∪ _scrolled_flight_keys st), true))
  \/ ((has_key r = false \/ _make_flight_key r ∈ _scrolled_flight_keys st)
      /\ collect_record st r = (st, false)).
Proof.
  unfold collect_record, has_key.
  destruct (truthy (_make_flight_key r)); simpl; [|right; split; [by left|done]].
  destruct (bool_decide (_make_flight_key r ∈ _scrolled_flight_keys st)) eqn:Hs.
  - apply bool_decide_eq_true in Hs. right. split; [by right|done].
  - apply bool_decide_eq_false in Hs. by left.
Qed.

(** Offering a record to the collector: it is new exactly when it has a
    key that is not in the key set; a new record is appended and nothing
    else changes; afterwards its key is in the set, and offering it again
    changes nothing. *)
Theorem collect_record_idempotent :
  forall st r,
    snd (collect_record st r)
    = has_key r && negb (bool_decide (_make_flight_key r ∈ _scrolled_flight_keys st))
    /\ _scrolled_flights (fst (collect_record st r))
       = _scrolled_flights st ++ (if snd (collect_record st r) then [r] else [])
    /\ _scrolled_flight_keys st ⊆ _scrolled_flight_keys (fst (collect_record st r))
    /\ (has_key r = true ->
        _make_flight_key r ∈ _scrolled_flight_keys (fst (collect_record st r)))
    /\ collect_record (fst (collect_record st r)) r
       = (fst (collect_record st r), false).
Proof.
  intros st r.
  destruct (collect_record_cases st r) as [(Hk & Hs & ->)|[H ->]]; simpl.
  - rewrite Hk, bool_decide_eq_false_2 by done.
    assert (_make_flight_key r
            ∈ ({[_make_flight_key r]} ∪ _scrolled_flight_keys st : gset pystr))
      as Hin by (apply elem_of_union; left; by apply elem_of_singleton).
    split; [done|]. split; [done|]. split; [apply union_subseteq_r|].
    split; [done|].
    destruct (collect_record_cases
                (Collector (_scrolled_flights st ++ [r])
                   ({[_make_flight_key r]} ∪ _scrolled_flight_keys st)) r)
      as [(_ & Hs' & _)|[_ ->]]; [|done]. by destruct Hs'.
  - rewrite app_nil_r. split.
    { destruct H as [->|H]; [done|].
      rewrite bool_decide_eq_true_2 by done. simpl. by rewrite andb_false_r. }
    split; [done|]. split; [done|]. split.
    + intros Hk. destruct H as [H|H]; [congruence|done].
    + destruct (collect_record_cases st r) as [(Hk & Hs & _)|[_ ->]]; [|done].
      destruct H as [H|H]; [congruence|by destruct Hs].
Qed.

Lemma collect_record_idempotent_witness :
  has_key (fare 1 (py "¥500")) = true
  /\ _make_flight_key (fare 1 (py "¥500"))
     ∈ _scrolled_flight_keys
         (fst (collect_record empty_collector (fare 1 (py "¥500")))).
Proof.
  assert (has_key (fare 1 (py "¥500")) = true) as H by (vm_compute; reflexivity).
  split; [exact H|].
  exact (proj1 (proj2 (proj2 (proj2
           (collect_record_idempotent empty_collector (fare 1 (py "¥500"))))))
           H).
Defined.

Lemma collect_containers_count cs i st n :
  snd (collect_containers cs i st n)
  = (n + length (first_seen (_scrolled_flight_keys st)
                   (List.filter has_key (parsed cs i))))%nat.
Proof.
  revert i st n. induction cs as [|c cs IH]; intros i st n; simpl; [lia|].
  destruct (_parse_flight_container c (i + 1)) as [[info|]|e]; simpl;
    try apply IH.
  destruct (collect_record_cases st info) as [(Hk & Hs & ->)|[H ->]];
    rewrite IH; rewrite ?Hk; cbn [_scrolled_flight_keys first_seen].
  - unfold has_key in Hk. rewrite Hk, bool_decide_eq_false_2 by done.
    simpl. lia.
  - destruct (has_key info) eqn:Hk; [|done].
    destruct H as [H|H]; [discriminate|].
    cbn [first_seen]. unfold has_key in Hk.
    by rewrite Hk, bool_decide_eq_true_2.
Qed.

Lemma first_seen_length seen offers :
  (length (first_seen seen offers) <= length offers)%nat.
Proof.
  revert seen. induction offers as [|r offers IH]; intros seen; simpl; [lia|].
  destruct (truthy (_make_flight_key r)); simpl.
  - destruct (bool_decide (_make_flight_key r ∈ seen)); simpl.
    + specialize (IH seen). lia.
    + specialize (IH ({[_make_flight_key r]} ∪ seen)). lia.
  - specialize (IH seen). lia.
Qed.

Lemma filter_length_le {A} (f : A -> bool) (l : list A) :
  (length (List.filter f l) <= length l)%nat.
Proof. induction l as [|x l IH]; simpl; [lia|]. destruct (f x); simpl; lia. Qed.

(** One round of collecting: the flights already in the cache stay where
    they are, the records appended are those first-seen-wins keeps of the
    records extracted in the round, and the number returned is the number
    appended, at most the number of records extracted. *)
Theorem collect_visible_counts_growth :
  forall q st,
    _scrolled_flights (fst (_collect_visible_flights q st))
    = _scrolled_flights st ++ newly_kept (_scrolled_flight_keys st) q
    /\ snd (_collect_visible_flights q st)
       = length (newly_kept (_scrolled_flight_keys st) q)
    /\ (snd (_collect_visible_flights q st) <= length (query_records q))%nat
    /\ length (_scrolled_flights (fst (_collect_visible_flights q st)))
       = (length (_scrolled_flights st) + snd (_collect_visible_flights q st))%nat.
Proof.
  intros q st.
  assert (snd (_collect_visible_flights q st)
          = length (newly_kept (_scrolled_flight_keys st) q)) as Hn.
  { unfold _collect_visible_flights, newly_kept, query_records.
    destruct (query_items q); [|done]. by rewrite collect_containers_count. }
  assert (_scrolled_flights (fst (_collect_visible_flights q st))
          = _scrolled_flights st ++ newly_kept (_scrolled_flight_keys st) q)
    as Hf.
  { rewrite collect_visible_fold, fold_collect_first_seen. reflexivity. }
  split; [exact Hf|]. split; [exact Hn|]. split.
  - rewrite Hn. unfold newly_kept.
    etransitivity; [apply first_seen_length | apply filter_length_le].
  - by rewrite Hf, Hn, length_app.
Qed.

Lemma cache_coherent_step st r :
  cache_coherent st -> cache_coherent (collect_step st r).
Proof.
  destruct st as [flights keys]. unfold cache_coherent, collect_step,
    collect_record, has_key. simpl. intros (Hkeys & Hnd & Hall).
  destruct (truthy (_make_flight_key r)) eqn:Hk; simpl; [|done].
  destruct (bool_decide (_make_flight_key r ∈ keys)) eqn:Hs; simpl; [done|].
  apply bool_decide_eq_false in Hs. rewrite fmap_app. simpl.
  split; [|split].
  - rewrite list_to_set_app_L, Hkeys. simpl.
    rewrite (right_id_L ∅ (∪)). apply (comm_L (∪)).
  - apply NoDup_app. split; [done|]. split; [|apply NoDup_singleton].
    intros k Hin [->|Hnil]%elem_of_cons; [|by apply elem_of_nil in Hnil].
    apply Hs. rewrite Hkeys. by apply elem_of_list_to_set.
  - apply Forall_app. split; [done|]. by constructor.
Qed.

Lemma cache_coherent_fold offers st :
  cache_coherent st -> cache_coherent (fold_left collect_step offers st).
Proof.
  revert st. induction offers as [|r offers IH]; intros st H; [done|].
  simpl. by apply IH, cache_coherent_step.
Qed.

(** The loader keeps the cache coherent: whatever the page does, after
    the loop the key set holds exactly the keys of the flights collected,
    every collected flight has a key, and no two share one. *)
Theorem loader_keeps_cache_coherent :
  forall page st,
    cache_coherent st ->
    cache_coherent (fst (_intelligent_scroll_for_content page st)).
Proof.
  intros page st H. unfold _intelligent_scroll_for_content.
  rewrite scroll_rounds_fold. by apply cache_coherent_fold.
Qed.

Lemma empty_cache_coherent : cache_coherent empty_collector.
Proof.
  split; [reflexivity|]. split; [constructor|constructor].
Qed.

Lemma loader_keeps_cache_coherent_witness :
  cache_coherent empty_collector
  /\ cache_coherent
       (fst (_intelligent_scroll_for_content (still_page two_fares)
               empty_collector)).
Proof.
  split; [exact empty_cache_coherent|].
  exact (loader_keeps_cache_coherent (still_page two_fares) empty_collector
           empty_cache_coherent).
Defined.

(** ** The rounds of the loader *)

Lemma collect_visible_spec q st :
  _scrolled_flights (fst (_collect_visible_flights q st))
  = _scrolled_flights st ++ newly_kept (_scrolled_flight_keys st) q
  /\ snd (_collect_visible_flights q st)
     = length (newly_kept (_scrolled_flight_keys st) q).
Proof.
  split.
  - rewrite collect_visible_fold, fold_collect_first_seen. reflexivity.
  - unfold _collect_visible_flights, newly_kept, query_records.
    destruct (query_items q); [|done]. by rewrite collect_containers_count.
Qed.

Lemma scroll_rounds_growth rounds page same prev_count prev_height st :
  let result := scroll_rounds rounds page same prev_count prev_height st in
  length (_scrolled_flights (fst result))
  = (length (_scrolled_flights st) + sum_list (new_in_round <$> snd result))%nat
  /\ _scrolled_flights st `prefix_of` _scrolled_flights (fst result).
Proof.
  revert same prev_count prev_height st.
  induction rounds as [|i rounds IH]; intros same prev_count prev_height st.
  - simpl. split; [lia|done].
  - cbn [scroll_rounds].
    destruct (query_items (flight_items (page i))) as [flight_elements|e].
    2:{ simpl. split; [lia|done]. }
    destruct (collect_visible_spec (visible_items (page i)) st) as [Hf Hn].
    destruct (_collect_visible_flights (visible_items (page i)) st)
      as [st' new]. simpl in Hf, Hn.
    assert (length (_scrolled_flights st')
            = (length (_scrolled_flights st) + new)%nat) as Hlen
      by (rewrite Hf, Hn, length_app; lia).
    assert (_scrolled_flights st `prefix_of` _scrolled_flights st') as Hpre
      by (rewrite Hf; by apply prefix_app_r).
    destruct (flight_cap <=? length (_scrolled_flights st'))%nat.
    { simpl. split; [lia|done]. }
    destruct (if (new =? 0)%nat && (scrollHeight (page i) =? prev_height)%Z
                 && (length flight_elements <=? prev_count)%nat
              then (S same, prev_count, prev_height)
              else (O, Nat.max prev_count (length flight_elements),
                    scrollHeight (page i)))
      as [[same' prev_count'] prev_height'].
    destruct (stable_rounds <=? same')%nat.
    { simpl. split; [lia|done]. }
    specialize (IH same' prev_count' prev_height' st').
    destruct (scroll_rounds rounds page same' prev_count' prev_height' st')
      as [st'' reports].
    cbn [fst snd] in *. destruct IH as [IH1 IH2]. split; [|by etransitivity].
    rewrite fmap_cons. cbn [sum_list_with new_in_round].
    change (id new) with new. lia.
Qed.

(** The log accounts for the cache: the numbers of new records the rounds
    report add up to the growth of the list of collected flights, and the
    flights held before the loop stay, in place, at its head. *)
Theorem loader_log_accounts_for_growth :
  forall page st,
    length (_scrolled_flights (fst (_intelligent_scroll_for_content page st)))
    = (length (_scrolled_flights st)
       + sum_list (new_in_round
                     <$> snd (_intelligent_scroll_for_content page st)))%nat
    /\ _scrolled_flights st
       `prefix_of`
       _scrolled_flights (fst (_intelligent_scroll_for_content page st)).
Proof.
  intros page st. apply scroll_rounds_growth.
Qed.

Lemma quiet_tail_le log : (quiet_tail log <= length log)%nat.
Proof.
  induction log as [|r log IH]; simpl; [lia|].
  destruct (_ && _); lia.
Qed.

Lemma quiet_tail_spec log :
  Forall (fun r => new_in_round r = O)
    (drop (length log - quiet_tail log) log).
Proof.
  induction log as [|r log IH]; simpl; [constructor|].
  pose proof (quiet_tail_le log) as Hle.
  destruct ((quiet_tail log =? length log)%nat && (new_in_round r =? 0)%nat)
    eqn:Hq.
  - apply andb_prop in Hq as [Hall Hr].
    apply Nat.eqb_eq in Hall, Hr. rewrite Nat.sub_diag. simpl.
    constructor; [done|]. rewrite Hall, Nat.sub_diag in IH. exact IH.
  - replace (S (length log) - quiet_tail log)%nat
      with (S (length log - quiet_tail log)) by lia.
    exact IH.
Qed.

Lemma scroll_rounds_stopping rounds page same prev_count prev_height st :
  let log := snd (scroll_rounds rounds page same prev_count prev_height st) in
  (length log < length rounds)%nat ->
  exists report,
    last log = Some report
    /\ ((flight_cap <= collected report)%nat
        \/ current_count report = None
        \/ (stable_rounds
            <= quiet_tail log
               + (if (quiet_tail log =? length log)%nat then same else 0))%nat).
Proof.
  revert same prev_count prev_height st.
  induction rounds as [|i rounds IH]; intros same prev_count prev_height st.
  - simpl. lia.
  - cbn [scroll_rounds].
    destruct (query_items (flight_items (page i))) as [flight_elements|e].
    2:{ simpl. intros _. eexists. split; [done|]. right. by left. }
    destruct (_collect_visible_flights (visible_items (page i)) st)
      as [st' new].
    destruct (flight_cap <=? length (_scrolled_flights st'))%nat eqn:Hcap.
    { simpl. intros _. eexists. split; [done|]. left.
      by apply Nat.leb_le in Hcap. }
    destruct ((new =? 0)%nat && (scrollHeight (page i) =? prev_height)%Z
              && (length flight_elements <=? prev_count)%nat) eqn:Hquiet.
    + apply andb_prop in Hquiet as [[Hnew _]%andb_prop _].
      destruct (stable_rounds <=? S same)%nat eqn:Hst.
      { simpl. intros _. eexists. split; [done|]. right. right.
        rewrite Hnew. simpl. apply Nat.leb_le in Hst. lia. }
      specialize (IH (S same) prev_count prev_height st').
      destruct (scroll_rounds rounds page (S same) prev_count prev_height st')
        as [st'' reports].
      simpl in *. intros Hlen.
      destruct IH as (report & Hlast & Hwhy); [lia|].
      exists report. split; [by destruct reports|].
      destruct Hwhy as [H|[H|H]]; [by left|right; by left|]. right. right.
      pose proof (quiet_tail_le reports).
      rewrite Hnew, andb_true_r.
      destruct (quiet_tail reports =? length reports)%nat eqn:Hall.
      * apply Nat.eqb_eq in Hall. rewrite Nat.eqb_refl. lia.
      * apply Nat.eqb_neq in Hall.
        replace (quiet_tail reports =? S (length reports))%nat with false
          by (symmetry; apply Nat.eqb_neq; lia).
        lia.
    + destruct (stable_rounds <=? 0)%nat eqn:Hst; [discriminate|].
      specialize (IH O (Nat.max prev_count (length flight_elements))
                    (scrollHeight (page i)) st').
      destruct (scroll_rounds rounds page 0
                  (Nat.max prev_count (length flight_elements))
                  (scrollHeight (page i)) st') as [st'' reports].
      simpl in *. intros Hlen.
      destruct IH as (report & Hlast & Hwhy); [lia|].
      exists report. split; [by destruct reports|].
      destruct Hwhy as [H|[H|H]]; [by left|right; by left|]. right. right.
      pose proof (quiet_tail_le reports).
      destruct (quiet_tail reports =? length reports)%nat eqn:Hall.
      * apply Nat.eqb_eq in Hall. simpl.
        destruct (new =? 0)%nat.
        -- rewrite Nat.eqb_refl. lia.
        -- replace (quiet_tail reports =? S (length reports))%nat with false
             by (symmetry; apply Nat.eqb_neq; lia).
           lia.
      * simpl.
        replace (quiet_tail reports =? S (length reports))%nat with false
          by (symmetry; apply Nat.eqb_neq; lia).
        lia.
Qed.

(** Why the loader stops before its fifth round: the cap of 30 records was
    reached, or the query for flight items raised, or the last three
    rounds brought no new record.  So it never gives up within fewer than
    three rounds unless the cap was reached or the query raised. *)
Theorem loader_stops_for_a_reason :
  forall page st,
    (length (snd (_intelligent_scroll_for_content page st)) < 5)%nat ->
    exists report,
      last (snd (_intelligent_scroll_for_content page st)) = Some report
      /\ ((30 <= collected report)%nat
          \/ current_count report = None
          \/ ((3 <= length (snd (_intelligent_scroll_for_content page st)))%nat
              /\ Forall (fun r => new_in_round r = O)
                   (drop
                      (length (snd (_intelligent_scroll_for_content page st)) - 3)
                      (snd (_intelligent_scroll_for_content page st))))).
Proof.
  intros page st. unfold _intelligent_scroll_for_content.
  pose proof (scroll_rounds_stopping (seq 1 max_rounds) page 0 0 0%Z st) as H.
  revert H.
  generalize (snd (scroll_rounds (seq 1 max_rounds) page 0 0 0%Z st)).
  intros log H Hlen. simpl in H.
  destruct H as (report & Hlast & Hwhy); [exact Hlen|].
  exists report. split; [exact Hlast|].
  destruct Hwhy as [H|[H|H]]; [by left|right; by left|]. right. right.
  pose proof (quiet_tail_le log) as Hle.
  pose proof (quiet_tail_spec log) as Hq.
  assert (3 <= quiet_tail log)%nat as H3
    by (unfold stable_rounds in H; destruct (_ =? _)%nat; lia).
  split; [lia|].
  replace (length log - 3)%nat
    with ((length log - quiet_tail log) + (quiet_tail log - 3))%nat by lia.
  rewrite <- drop_drop. by apply Forall_drop.
Qed.

Lemma loader_stops_for_a_reason_witness :
  (length (snd (_intelligent_scroll_for_content (still_page two_fares)
                  empty_collector)) < 5)%nat
  /\ exists report,
       last (snd (_intelligent_scroll_for_content (still_page two_fares)
                    empty_collector)) = Some report
       /\ ((30 <= collected report)%nat
           \/ current_count report = None
           \/ ((3 <= length (snd (_intelligent_scroll_for_content
                                    (still_page two_fares) empty_collector)))%nat
               /\ Forall (fun r => new_in_round r = O)
                    (drop
                       (length (snd (_intelligent_scroll_for_content
                                       (still_page two_fares) empty_collector))
                        - 3)
                       (snd (_intelligent_scroll_for_content
                               (still_page two_fares) empty_collector))))).
Proof.
  assert (length (snd (_intelligent_scroll_for_content (still_page two_fares)
                         empty_collector)) < 5)%nat as H
    by (vm_compute; lia).
  split; [exact H|].
  exact (loader_stops_for_a_reason (still_page two_fares) empty_collector H).
Defined.

(** ** The final pass *)

Lemma index_renumbered (l : list flight_info)
    (g : nat -> flight_info -> flight_info) (f : nat -> nat) :
  (forall i r, index (g i r) = f i) ->
  index <$> imap g l = f <$> seq 0 (length l).
Proof.
  revert g f. induction l as [|r l IH]; intros g f Hg; [done|].
  rewrite imap_cons, fmap_cons, Hg.
  rewrite (IH (g ∘ S) (f ∘ S)) by (intros; apply Hg).
  cbn [length seq]. rewrite fmap_cons. f_equal.
  by rewrite <- fmap_S_seq, <- list_fmap_compose.
Qed.

(** When the final pass runs in full, the flights it returns are numbered
    1, 2, ... in their final order, whatever indices they had. *)
Theorem final_pass_renumbers :
  forall obs st,
    final_pass_runs obs = true ->
    index <$> _parse_flights obs st
    = seq 1 (length (_parse_flights obs st)).
Proof.
  intros obs st. unfold final_pass_runs, _parse_flights.
  destruct (body_wrapper obs) as [[|]|e]; try discriminate.
  destruct (query_items (wrapped_items obs)) as [[|c cs]|e]; try discriminate.
  intros _. unfold renumber.
  rewrite (index_renumbered _ _ S) by done.
  rewrite length_imap. apply fmap_S_seq.
Qed.

Lemma final_pass_renumbers_witness :
  final_pass_runs (final_pass page_with_two_fares) = true
  /\ index <$> _parse_flights (final_pass page_with_two_fares)
                 (Collector [fare 7 (py "¥500")] {[py "MU6863|08:00"]})
     = seq 1 (length (_parse_flights (final_pass page_with_two_fares)
                        (Collector [fare 7 (py "¥500")] {[py "MU6863|08:00"]}))).
Proof.
  assert (final_pass_runs (final_pass page_with_two_fares) = true) as H
    by reflexivity.
  split; [exact H|].
  exact (final_pass_renumbers _ _ H).
Defined.

Lemma parse_flights_spec obs st :
  set_index 0 <$> _parse_flights obs st
  = set_index 0
      <$> (_scrolled_flights st ++ finally_kept (_scrolled_flight_keys st) obs)
  /\ (final_pass_runs obs = false -> _parse_flights obs st = _scrolled_flights st).
Proof.
  unfold _parse_flights, finally_kept, final_offers, query_records,
    final_pass_runs.
  destruct (body_wrapper obs) as [[|]|e];
    try (cbn [List.filter first_seen]; by rewrite app_nil_r).
  destruct (query_items (wrapped_items obs)) as [[|c cs]|e];
    try (cbn [List.filter first_seen parsed]; by rewrite app_nil_r).
  split; [|discriminate].
  rewrite final_containers_fold, fold_final_first_seen.
  cbn [fst]. unfold renumber. apply erase_renumbering.
Qed.

Lemma first_seen_sublist seen offers : first_seen seen offers `sublist_of` offers.
Proof.
  revert seen. induction offers as [|r offers IH]; intros seen; simpl; [done|].
  destruct (truthy (_make_flight_key r)).
  - destruct (bool_decide (_make_flight_key r ∈ seen)).
    + by apply sublist_cons.
    + by apply sublist_skip.
  - by apply sublist_skip.
Qed.

Lemma filter_sublist {A} (f : A -> bool) (l : list A) :
  List.filter f l `sublist_of` l.
Proof.
  induction l as [|x l IH]; simpl; [done|].
  destruct (f x); [by apply sublist_skip | by apply sublist_cons].
Qed.

Lemma filter_Forall {A} (f : A -> bool) (l : list A) :
  Forall (fun x => f x = true) (List.filter f l).
Proof.
  induction l as [|x l IH]; simpl; [constructor|].
  destruct (f x) eqn:Hx; [by constructor | done].
Qed.

Lemma Forall_of_sublist {A} (P : A -> Prop) (k l : list A) :
  k `sublist_of` l -> Forall P l -> Forall P k.
Proof.
  induction 1 as [|x k l _ IH|x k l _ IH]; intros H; [done| |].
  - inversion H; subst. constructor; auto.
  - inversion H; subst. auto.
Qed.

Lemma keyed_app a b : keyed (a ++ b) = keyed a ++ keyed b.
Proof. unfold keyed. by rewrite fmap_app, List.filter_app. Qed.

Lemma keyed_all_keys l :
  Forall (fun r => has_key r = true) l -> keyed l = _make_flight_key <$> l.
Proof.
  induction 1 as [|r l Hr _ IH]; [done|].
  unfold keyed in *. rewrite fmap_cons. cbn [List.filter].
  unfold has_key in Hr. by rewrite Hr, IH.
Qed.

Lemma keyed_subset l k : k ∈ keyed l -> k ∈ _make_flight_key <$> l.
Proof.
  unfold keyed. intros H. apply list_elem_of_In, List.filter_In in H as [H _].
  by apply list_elem_of_In.
Qed.

(** The final pass, whatever the page answers: the flights of the cache
    stay in place at the head of the result, indices apart; what is
    appended are records the pass extracted, in the order it met them,
    each with a flight number; without the full run nothing is appended
    and nothing renumbered; and from a coherent cache the result holds no
    key twice. *)
Theorem final_pass_appends :
  forall obs st,
    set_index 0 <$> _parse_flights obs st
    = set_index 0
        <$> (_scrolled_flights st ++ finally_kept (_scrolled_flight_keys st) obs)
    /\ finally_kept (_scrolled_flight_keys st) obs `sublist_of` final_offers obs
    /\ Forall (fun r => has_flight_number r = true)
         (finally_kept (_scrolled_flight_keys st) obs)
    /\ (final_pass_runs obs = false ->
        _parse_flights obs st = _scrolled_flights st)
    /\ (cache_coherent st -> NoDup (keyed (_parse_flights obs st))).
Proof.
  intros obs st. destruct (parse_flights_spec obs st) as [Hspec Hearly].
  split; [exact Hspec|]. split; [|split; [|split; [exact Hearly|]]].
  - unfold finally_kept.
    etransitivity; [apply first_seen_sublist | apply filter_sublist].
  - unfold finally_kept.
    eapply Forall_of_sublist; [apply first_seen_sublist | apply filter_Forall].
  - intros (Hkeys & Hnd & Hall).
    rewrite <- keyed_erase_index, Hspec, keyed_erase_index, keyed_app.
    destruct (first_seen_keyed (_scrolled_flight_keys st)
                (List.filter has_flight_number (final_offers obs)))
      as [Hnd' Hnew].
    apply NoDup_app. split; [by rewrite keyed_all_keys|]. split; [|exact Hnd'].
    intros k Hk Hk'. apply (Hnew k Hk'). rewrite Hkeys.
    apply elem_of_list_to_set. by apply keyed_subset.
Qed.

Lemma final_pass_appends_witness :
  cache_coherent empty_collector
  /\ NoDup (keyed (_parse_flights (final_pass page_with_two_fares)
                     empty_collector)).
Proof.
  split; [exact empty_cache_coherent|].
  exact (proj2 (proj2 (proj2 (proj2
           (final_pass_appends (final_pass page_with_two_fares)
              empty_collector)))) empty_cache_coherent).
Defined.

(** ** The top-level operation *)

Lemma rejected_search w dep dst date :
  passes_validation w dep dst date = false ->
  exists code message,
    search_body w dep dst date = (Ok (error code message), [])
    /\ code <> SEARCH_FAILED.
Proof.
  unfold passes_validation, search_body. intros H.
  destruct (truthy dep); simpl in *; [|by do 2 eexists].
  destruct (truthy dst); simpl in *; [|by do 2 eexists].
  destruct (truthy date); simpl in *; [|by do 2 eexists].
  destruct (DRISSION_PAGE_AVAILABLE w); simpl in *; [|by do 2 eexists].
  destruct (cities_dict_imported w); simpl in *; [|by do 2 eexists].
  destruct (strptime_ymd date) as [d|]; [|by do 2 eexists].
  destruct (date_ltb d (today w)); simpl in *; [by do 2 eexists|].
  destruct (truthy_opt (get_airport_code w dep)); simpl in *;
    [|by do 2 eexists].
  destruct (truthy_opt (get_airport_code w dst)); simpl in *;
    [discriminate|by do 2 eexists].
Qed.

(** The search never raises, and its answers are of three kinds.  A query
    that fails a check of the arguments gets an error other than the
    catch-all one.  The catch-all error SEARCH_FAILED is the answer exactly
    when every check passed and then the constructor of the searcher
    raised, or closing the browser raised, or the statistics raised.  A
    success answer is given only when every check passed and the browser
    was opened and closed without an exception. *)
Theorem search_failed_exactly_when :
  forall w dep dst date,
    (exists answer, fst (searchFlightRoutes w dep dst date) = Ok answer)
    /\ (passes_validation w dep dst date = false ->
        exists code message,
          fst (searchFlightRoutes w dep dst date) = Ok (error code message)
          /\ code <> SEARCH_FAILED)
    /\ (error_code_of (searchFlightRoutes w dep dst date) = Some SEARCH_FAILED
        <-> passes_validation w dep dst date = true
            /\ ((exists e, new_session w = Raise e)
                \/ exists p,
                     new_session w = Ok p
                     /\ ((exists e, page_quit p = Raise e)
                         \/ exists flights e,
                              search_flights w p dep dst date = Ok flights
                              /\ statistics flights = Raise e)))
    /\ (forall res,
          fst (searchFlightRoutes w dep dst date) = Ok (success res) ->
          passes_validation w dep dst date = true
          /\ exists p, new_session w = Ok p /\ page_quit p = Ok tt).
Proof.
  intros w dep dst date. unfold error_code_of, searchFlightRoutes.
  destruct (passes_validation w dep dst date) eqn:Hv.
  - rewrite (validated_search _ _ _ _ Hv).
    destruct (new_session w) as [p|e]; cbn [fst].
    + destruct (search_flights_never_raises w p dep dst date) as [fl Hfl].
      rewrite Hfl.
      destruct (page_quit p) as [[]|e] eqn:Hq; cbn [mbind exc_bind try_except].
      * destruct (statistics fl) as [stats|e] eqn:Hst;
          cbn [mbind exc_bind try_except].
        -- split; [by eexists|]. split; [discriminate|]. split.
           ++ split; [discriminate|].
              intros [_ [[e He]|(p' & Hp & [[e He]|(fl' & e & Hf & He)])]].
              ** discriminate.
              ** injection Hp as <-. congruence.
              ** injection Hp as <-. congruence.
           ++ intros res _. split; [done|]. by exists p.
        -- split; [by eexists|]. split; [discriminate|]. split.
           ++ split; [|done]. intros _. split; [done|]. right.
              exists p. split; [done|]. right. by exists fl, e.
           ++ discriminate.
      * split; [by eexists|]. split; [discriminate|]. split.
        -- split; [|done]. intros _. split; [done|]. right.
           exists p. split; [done|]. left. by exists e.
        -- discriminate.
    + cbn [try_except]. split; [by eexists|]. split; [discriminate|]. split.
      * split; [|done]. intros _. split; [done|]. left. by exists e.
      * discriminate.
  - destruct (rejected_search _ _ _ _ Hv) as (code & message & -> & Hc).
    cbn [fst try_except]. split; [by eexists|]. split.
    + intros _. by exists code, message.
    + split.
      * split; [intros [= ->]; done|]. by intros [? _].
      * discriminate.
Qed.

Lemma search_failed_exactly_when_witness :
  passes_validation (world_with (Date 2026 11 4) no_browser)
    (py "北京") (py "上海") (py "2020-01-01") = false
  /\ exists code message,
       fst (searchFlightRoutes (world_with (Date 2026 11 4) no_browser)
              (py "北京") (py "上海") (py "2020-01-01"))
       = Ok (error code message)
       /\ code <> SEARCH_FAILED.
Proof.
  assert (passes_validation (world_with (Date 2026 11 4) no_browser)
            (py "北京") (py "上海") (py "2020-01-01") = false) as H
    by (vm_compute; reflexivity).
  split; [exact H|].
  exact (proj1 (proj2 (search_failed_exactly_when
           (world_with (Date 2026 11 4) no_browser)
           (py "北京") (py "上海") (py "2020-01-01"))) H).
Defined.

Lemma count_airline_total name airlines :
  sum_list (snd <$> count_airline name airlines)
  = S (sum_list (snd <$> airlines)).
Proof.
  induction airlines as [|[a n] airlines IH]; [done|].
  cbn [count_airline]. destruct (pystr_eqb a name).
  - rewrite !fmap_cons. cbn [sum_list_with snd]. unfold id. lia.
  - rewrite !fmap_cons. cbn [sum_list_with snd]. rewrite IH. unfold id. lia.
Qed.

Lemma airline_counts_total_from flights airlines :
  sum_list (snd <$> fold_left
                      (fun airlines flight =>
                         count_airline (default unknown (airline flight)) airlines)
                      flights airlines)
  = (sum_list (snd <$> airlines) + length flights)%nat.
Proof.
  revert airlines. induction flights as [|f flights IH]; intros airlines.
  - simpl. lia.
  - cbn [fold_left length]. rewrite IH, count_airline_total. lia.
Qed.

Lemma airline_counts_total flights :
  sum_list (snd <$> airline_counts flights) = length flights.
Proof. unfold airline_counts. by rewrite airline_counts_total_from. Qed.

Lemma search_flights_result w p dep dst date :
  search_flights w p dep dst date = Ok []
  \/ search_flights w p dep dst date = Ok (merged_flights p).
Proof.
  unfold search_flights.
  destruct (_ || _); [by left|].
  destruct (strptime_ymd date); [|by left].
  destruct (page_get p); simpl; [|by left].
  destruct (wait_for_page_ready p); simpl; [|by left].
  destruct (wait_for_flight_content p); simpl; [by right|by left].
Qed.

Lemma statistics_shape flights prices airlines :
  statistics flights = Ok (prices, airlines) ->
  airlines = match flights with
             | [] => None
             | _ :: _ => Some (airline_counts flights)
             end
  /\ (flights = [] -> prices = None).
Proof.
  unfold statistics. destruct flights as [|f flights].
  - by intros [= <- <-].
  - destruct (collect_prices (f :: flights) []) as [ps|e]; [|discriminate].
    cbn [mbind exc_bind]. by intros [= <- <-].
Qed.

(** What a success envelope holds: the query as it was given; the flights
    of the merge of the session's page, or none; their number as the
    flight count; airline statistics exactly when there is a flight, the
    counts adding up to the flight count; no price statistics without a
    flight. *)
Theorem success_envelope_is_consistent :
  forall w dep dst date r,
    fst (searchFlightRoutes w dep dst date) = Ok (success r) ->
    departure_city r = dep /\ destination_city r = dst
    /\ departure_date r = date
    /\ flight_count r = length (flights r)
    /\ (exists p,
          new_session w = Ok p
          /\ (flights r = [] \/ flights r = merged_flights p))
    /\ airline_statistics r
       = match flights r with
         | [] => None
         | _ :: _ => Some (airline_counts (flights r))
         end
    /\ (forall counts,
          airline_statistics r = Some counts ->
          sum_list (snd <$> counts) = flight_count r)
    /\ (flights r = [] -> price_statistics r = None).
Proof.
  intros w dep dst date r. unfold searchFlightRoutes.
  destruct (passes_validation w dep dst date) eqn:Hv.
  2:{ destruct (rejected_search _ _ _ _ Hv) as (code & message & -> & _).
      discriminate. }
  rewrite (validated_search _ _ _ _ Hv).
  destruct (new_session w) as [p|e]; simpl; [|discriminate].
  destruct (page_quit p); simpl; [|discriminate].
  pose proof (search_flights_result w p dep dst date) as Hfl.
  destruct (search_flights w p dep dst date) as [fl|e]; simpl;
    [|discriminate].
  destruct (statistics fl) as [[prices airlines]|e] eqn:Hst; simpl;
    [|discriminate].
  destruct (statistics_shape _ _ _ Hst) as [Ha Hp].
  intros [= <-]. simpl. repeat split; try done.
  - exists p. split; [done|].
    destruct Hfl as [Hfl|Hfl]; injection Hfl as ->; [by left|by right].
  - intros counts Hc. rewrite Ha in Hc. destruct fl as [|f fl]; [discriminate|].
    injection Hc as <-. apply airline_counts_total.
Qed.

Lemma success_envelope_is_consistent_witness :
  fst (searchFlightRoutes
         (world_with (Date 2026 11 4) (Ok page_with_two_fares))
         (py "北京") (py "上海") (py "2026-11-11"))
  = Ok (success
          (SearchResult (py "北京") (py "上海") (py "2026-11-11")
             (Some (py "北京")) (Some (py "北京")) 1 [fare 1 (py "¥500")]
             (Some (PriceStats 500 500 500)) (Some [(unknown, 1%nat)])))
  /\ flight_count
       (SearchResult (py "北京") (py "上海") (py "2026-11-11")
          (Some (py "北京")) (Some (py "北京")) 1 [fare 1 (py "¥500")]
          (Some (PriceStats 500 500 500)) (Some [(unknown, 1%nat)]))
     = 1%nat.
Proof.
  assert (fst (searchFlightRoutes
                 (world_with (Date 2026 11 4) (Ok page_with_two_fares))
                 (py "北京") (py "上海") (py "2026-11-11"))
          = Ok (success
                  (SearchResult (py "北京") (py "上海") (py "2026-11-11")
                     (Some (py "北京")) (Some (py "北京")) 1
                     [fare 1 (py "¥500")]
                     (Some (PriceStats 500 500 500))
                     (Some [(unknown, 1%nat)])))) as H
    by (vm_compute; reflexivity).
  split; [exact H|].
  exact (proj1 (proj2 (proj2 (proj2
           (success_envelope_is_consistent _ _ _ _ _ H))))).
Defined.

(** ** The statistics *)

Lemma minimum_spec x l :
  minimum x l ∈ x :: l /\ Forall (fun y => minimum x l <= y) (x :: l).
Proof.
  unfold minimum. induction l as [|y l [Hin Hall]]; simpl.
  - split; [by left|]. constructor; [lia|constructor].
  - inversion Hall as [|? ? Hx Hl]; subst.
    destruct (N.min_spec y (foldr N.min x l)) as [[Hlt ->]|[Hle ->]].
    + split; [right; by left|].
      constructor; [lia|]. constructor; [lia|].
      eapply Forall_impl; [exact Hl|]. simpl. intros; lia.
    + split.
      * apply elem_of_cons in Hin as [->|Hin]; [by left|right; by right].
      * constructor; [done|]. by constructor.
Qed.

Lemma maximum_spec x l :
  maximum x l ∈ x :: l /\ Forall (fun y => y <= maximum x l) (x :: l).
Proof.
  unfold maximum. induction l as [|y l [Hin Hall]]; simpl.
  - split; [by left|]. constructor; [lia|constructor].
  - inversion Hall as [|? ? Hx Hl]; subst.
    destruct (N.max_spec y (foldr N.max x l)) as [[Hlt ->]|[Hle ->]].
    + split.
      * apply elem_of_cons in Hin as [->|Hin]; [by left|right; by right].
      * constructor; [done|]. constructor; [lia|done].
    + split; [right; by left|].
      constructor; [lia|]. constructor; [lia|].
      eapply Forall_impl; [exact Hl|]. simpl. intros; lia.
Qed.

Lemma sum_between lo hi l :
  Forall (fun y => lo <= y <= hi) l ->
  lo * N.of_nat (length l) <= sum l <= hi * N.of_nat (length l).
Proof.
  unfold sum. induction 1 as [|y l Hy _ IH]; [simpl; lia|].
  cbn [length foldr]. rewrite Nat2N.inj_succ. nia.
Qed.

(** The price statistics are taken from the prices: the least and the
    greatest are prices of the list and bound every price, and the average
    lies between them. *)
Theorem price_statistics_bounds :
  forall prices stats,
    price_stats_of prices = Some stats ->
    min_price stats ∈ prices /\ max_price stats ∈ prices
    /\ Forall (fun y => min_price stats <= y <= max_price stats) prices
    /\ min_price stats <= avg_price stats <= max_price stats.
Proof.
  intros prices stats. destruct prices as [|x l]; [discriminate|].
  intros [= <-]. cbn [min_price max_price avg_price].
  destruct (minimum_spec x l) as [Hmin Hlo].
  destruct (maximum_spec x l) as [Hmax Hhi].
  assert (Forall (fun y => minimum x l <= y <= maximum x l) (x :: l)) as Hall.
  { apply Forall_and. by split. }
  split; [exact Hmin|]. split; [exact Hmax|]. split; [exact Hall|].
  apply sum_between in Hall.
  set (n := N.of_nat (length (x :: l))) in *.
  assert (n <> 0) by (subst n; simpl; lia).
  split.
  - apply N.div_le_lower_bound; [done|]. rewrite N.mul_comm. apply Hall.
  - apply N.Div0.div_le_upper_bound. rewrite N.mul_comm. apply Hall.
Qed.

Lemma price_statistics_bounds_witness :
  price_stats_of [820; 450; 1200] = Some (PriceStats 450 1200 823)
  /\ min_price (PriceStats 450 1200 823) ∈ [820; 450; 1200]
  /\ max_price (PriceStats 450 1200 823) ∈ [820; 450; 1200].
Proof.
  assert (price_stats_of [820; 450; 1200] = Some (PriceStats 450 1200 823))
    as H by reflexivity.
  split; [exact H|].
  pose proof (price_statistics_bounds _ _ H) as (Hmin & Hmax & _).
  by split.
Defined.

Lemma count_of_count_airline name a airlines :
  count_of name (count_airline a airlines)
  = (count_of name airlines + (if pystr_eqb a name then 1 else 0))%nat.
Proof.
  unfold count_of. induction airlines as [|[b n] airlines IH].
  - cbn [count_airline List.find fst snd].
    destruct (pystr_eqb a name); simpl; lia.
  - cbn [count_airline].
    destruct (pystr_eqb b a) eqn:Hba.
    + apply bool_decide_eq_true in Hba as ->.
      cbn [List.find fst snd]. destruct (pystr_eqb a name); simpl; lia.
    + cbn [List.find fst snd].
      destruct (pystr_eqb b name) eqn:Hbn; [|exact IH].
      apply bool_decide_eq_true in Hbn as ->.
      unfold pystr_eqb in *. rewrite bool_decide_eq_false_2; [simpl; lia|].
      intros ->. by rewrite bool_decide_eq_true_2 in Hba.
Qed.

Lemma count_airline_names a airlines :
  NoDup (fst <$> airlines) ->
  NoDup (fst <$> count_airline a airlines)
  /\ forall name,
       name ∈ fst <$> count_airline a airlines ->
       name = a \/ name ∈ fst <$> airlines.
Proof.
  induction airlines as [|[b n] airlines IH]; intros Hnd.
  - cbn [count_airline]. split; [apply NoDup_singleton|].
    intros name [->|H]%elem_of_cons; [by left|by apply elem_of_nil in H].
  - cbn [count_airline]. rewrite fmap_cons in Hnd.
    apply NoDup_cons in Hnd as [Hb Hnd].
    destruct (pystr_eqb b a) eqn:Hba.
    + rewrite !fmap_cons. cbn [fst]. split; [by constructor|].
      intros name H. by right.
    + destruct (IH Hnd) as [IHnd IHin].
      rewrite !fmap_cons. cbn [fst]. split.
      * constructor; [|done]. intros Hin.
        destruct (IHin _ Hin) as [->|Hin']; [|done].
        unfold pystr_eqb in Hba. by rewrite bool_decide_eq_true_2 in Hba.
      * intros name [->|H]%elem_of_cons; [right; by left|].
        destruct (IHin _ H) as [->|H']; [by left|right; by right].
Qed.

Lemma count_airline_positive a airlines :
  Forall (fun entry => (0 < snd entry)%nat) airlines ->
  Forall (fun entry => (0 < snd entry)%nat) (count_airline a airlines).
Proof.
  induction 1 as [|[b n] airlines Hb Hl IH]; cbn [count_airline].
  - constructor; [simpl; lia|constructor].
  - destruct (pystr_eqb b a).
    + constructor; [simpl; lia|exact Hl].
    + constructor; [exact Hb|exact IH].
Qed.

Lemma airline_counts_from flights airlines :
  NoDup (fst <$> airlines) ->
  Forall (fun entry => (0 < snd entry)%nat) airlines ->
  let result :=
    fold_left
      (fun airlines flight => count_airline (airline_of flight) airlines)
      flights airlines in
  NoDup (fst <$> result)
  /\ Forall (fun entry => (0 < snd entry)%nat) result
  /\ forall name,
       count_of name result
       = (count_of name airlines
          + length (List.filter (fun f => pystr_eqb (airline_of f) name) flights))%nat.
Proof.
  revert airlines. induction flights as [|f flights IH]; intros airlines Hnd Hpos.
  - simpl. repeat split; [done|done|]. intros; lia.
  - cbn [fold_left].
    destruct (IH (count_airline (airline_of f) airlines)) as (H1 & H2 & H3).
    { by apply count_airline_names. }
    { by apply count_airline_positive. }
    split; [exact H1|]. split; [exact H2|].
    intros name. rewrite H3, count_of_count_airline. cbn [List.filter].
    destruct (pystr_eqb (airline_of f) name); simpl; lia.
Qed.

(** The airline statistics count the flights by airline: each airline has
    one entry, the entry of an airline holds the number of flights of that
    airline, flights without an airline being counted under the name for
    unknown, and no entry holds zero. *)
Theorem airline_counts_are_counts :
  forall flights,
    NoDup (fst <$> airline_counts flights)
    /\ Forall (fun entry => (0 < snd entry)%nat) (airline_counts flights)
    /\ (forall name,
          count_of name (airline_counts flights)
          = length (List.filter (fun f => pystr_eqb (airline_of f) name) flights))
    /\ sum_list (snd <$> airline_counts flights) = length flights.
Proof.
  intros flights.
  destruct (airline_counts_from flights []) as (H1 & H2 & H3);
    [constructor|constructor|].
  split; [exact H1|]. split; [exact H2|]. split; [exact H3|].
  apply airline_counts_total.
Qed.

(** ** From the containers of the page to the flights of the result *)

Lemma has_flight_number_some r :
  has_flight_number r = true -> is_Some (flightNumber r).
Proof.
  unfold has_flight_number. destruct (flightNumber r) as [f|]; [by eexists|].
  discriminate.
Qed.

Lemma parsed_from_extractor cs i r :
  r ∈ parsed cs i ->
  exists c j, c ∈ cs /\ _parse_flight_container c j = Ok (Some r).
Proof.
  revert i. induction cs as [|c cs IH]; intros i; cbn [parsed].
  - intros H. by apply elem_of_nil in H.
  - destruct (_parse_flight_container c (i + 1)) as [[info|]|m] eqn:Hp.
    + intros [->|H]%elem_of_cons.
      * exists c, (i + 1)%nat. split; [by left|done].
      * destruct (IH _ H) as (c' & j & Hc & Hj).
        exists c', j. split; [by right|done].
    + intros H. destruct (IH _ H) as (c' & j & Hc & Hj).
      exists c', j. split; [by right|done].
    + intros H. destruct (IH _ H) as (c' & j & Hc & Hj).
      exists c', j. split; [by right|done].
Qed.

Lemma query_records_from_extractor q r :
  r ∈ query_records q ->
  exists c j, _parse_flight_container c j = Ok (Some r).
Proof.
  unfold query_records. destruct (query_items q) as [cs|m].
  - intros H. destruct (parsed_from_extractor _ _ _ H) as (c & j & _ & Hj).
    by exists c, j.
  - intros H. by apply elem_of_nil in H.
Qed.

Lemma candidates_from_extractor page x :
  x ∈ candidates page ->
  (exists c j, _parse_flight_container c j = Ok (Some x))
  /\ has_key x = true.
Proof.
  unfold candidates. intros [H|H]%elem_of_app.
  - apply list_elem_of_In, List.filter_In in H as [H Hk]. split; [|exact Hk].
    unfold scroll_offers in H. apply List.in_flat_map in H as (report & _ & H).
    destruct (current_count report); [|destruct H].
    by apply list_elem_of_In, query_records_from_extractor in H.
  - apply list_elem_of_In, List.filter_In in H as [H Hn].
    assert (exists c j, _parse_flight_container c j = Ok (Some x))
      as (c & j & Hj).
    { unfold final_offers in H.
      destruct (body_wrapper (final_pass page)) as [[|]|m]; try destruct H.
      by apply list_elem_of_In, query_records_from_extractor in H. }
    split; [by exists c, j|].
    by apply (flight_number_gives_key c j x Hj), has_flight_number_some.
Qed.

Lemma price_has_sign c i r p :
  _parse_flight_container c i = Ok (Some r) ->
  price r = Some p -> contains (py "¥") p = true.
Proof.
  intros Hr Hp. apply parse_some in Hr as [Hr _].
  apply extract_fields_ok in Hr as (_ & _ & _ & _ & _ & _ & _ & _ & _ & He).
  rewrite Hp in He. unfold extract_price in He.
  destruct (_safe_ele (price_span c)) as [e|]; [|discriminate].
  destruct (text e) as [t|m]; simpl in He; [|discriminate].
  injection He as He. unfold normalize_price in He.
  destruct (contains (py "¥") (strip t)) eqn:Hc.
  - by injection He as <-.
  - destruct (re_search digits_re (strip t)); [|discriminate].
    by injection He as <-.
Qed.

Lemma keyed_all (l : list flight_info) :
  Forall (fun r => has_key r = true) l -> keyed l = _make_flight_key <$> l.
Proof.
  unfold keyed. induction 1 as [|r l Hr _ IH]; [done|].
  rewrite fmap_cons. cbn [List.filter]. unfold has_key in Hr. rewrite Hr.
  by rewrite IH.
Qed.

Lemma merged_keys_distinct page :
  NoDup (_make_flight_key <$> merged_flights page).
Proof.
  rewrite <- keys_erase_index, merged_is_first_seen, keys_erase_index.
  rewrite <- keyed_all; [apply first_seen_keyed|].
  apply (Forall_of_sublist _ _ (candidates page));
    [apply first_seen_sublist|].
  apply Forall_forall. intros x Hx.
  exact (proj2 (candidates_from_extractor _ _ Hx)).
Qed.

Lemma merged_from_extractor page r :
  r ∈ merged_flights page ->
  exists c i, _parse_flight_container c i = Ok (Some (set_index i r)).
Proof.
  intros Hr. destruct (merged_among_candidates _ _ Hr) as (x & Hx & Heq).
  apply candidates_from_extractor in Hx as [(c & j & Hj) _].
  exists c, j. rewrite Hj. do 2 f_equal.
  pose proof Hj as Hi. apply parse_some in Hi as [Hi _].
  apply extract_fields_ok in Hi as [Hi _].
  transitivity (set_index j (set_index 0 x)).
  - destruct x. simpl in Hi. by subst.
  - by rewrite Heq.
Qed.

(** Every flight of a successful search is a record the extractor made of
    a container of the page (up to its index): it has one of the three
    required fields and a non-empty key, a flight number, where it has one,
    is two capital letters and three or four digits, and a price, where it
    has one, shows the currency sign.  No two flights of the result have
    the same key. *)
Theorem returned_flights_are_extracted_records :
  forall w dep dst date res,
    fst (searchFlightRoutes w dep dst date) = Ok (success res) ->
    NoDup (_make_flight_key <$> flights res)
    /\ forall r,
         r ∈ flights res ->
         (exists c i, _parse_flight_container c i = Ok (Some (set_index i r)))
         /\ has_required_field r = true
         /\ has_key r = true
         /\ (forall f, flightNumber r = Some f -> carrier_and_digits f)
         /\ (forall p, price r = Some p -> contains (py "¥") p = true).
Proof.
  intros w dep dst date res. unfold searchFlightRoutes.
  destruct (passes_validation w dep dst date) eqn:Hv.
  2:{ destruct (rejected_search _ _ _ _ Hv) as (code & message & -> & _).
      discriminate. }
  rewrite (validated_search _ _ _ _ Hv).
  destruct (new_session w) as [p|e]; simpl; [|discriminate].
  destruct (page_quit p); simpl; [|discriminate].
  pose proof (search_flights_result w p dep dst date) as Hfl.
  destruct (search_flights w p dep dst date) as [fl|e]; simpl;
    [|discriminate].
  destruct (statistics fl) as [[prices airlines]|e]; simpl; [|discriminate].
  intros [= <-]. cbn [flights].
  destruct Hfl as [Hfl|Hfl]; injection Hfl as ->.
  { split; [constructor|]. intros r Hr. by apply elem_of_nil in Hr. }
  split; [apply merged_keys_distinct|].
  intros r Hr. destruct (merged_from_extractor _ _ Hr) as (c & i & Hi).
  split; [by exists c, i|].
  split; [by apply parse_some in Hi as [_ Hi]|].
  split.
  - destruct (merged_among_candidates _ _ Hr) as (x & Hx & Heq).
    assert (has_key r = has_key x) as ->;
      [|exact (proj2 (candidates_from_extractor _ _ Hx))].
    change (has_key (set_index 0 r) = has_key (set_index 0 x)).
    by rewrite Heq.
  - split.
    + intros f Hf.
      apply parse_some in Hi as [Hi _].
      apply extract_fields_ok in Hi as (_ & _ & Hn & _).
      cbn [flightNumber set_index] in Hn. rewrite Hf in Hn.
      by apply (extract_flight_number_shape c).
    + intros q Hq. by apply (price_has_sign c i (set_index i r) q Hi).
Qed.

Lemma returned_flights_are_extracted_records_witness :
  fst (searchFlightRoutes
         (world_with (Date 2026 11 4) (Ok page_with_two_fares))
         (py "北京") (py "上海") (py "2026-11-11"))
  = Ok (success
          (SearchResult (py "北京") (py "上海") (py "2026-11-11")
             (Some (py "北京")) (Some (py "北京")) 1 [fare 1 (py "¥500")]
             (Some (PriceStats 500 500 500)) (Some [(unknown, 1%nat)])))
  /\ NoDup (_make_flight_key <$> [fare 1 (py "¥500")]).
Proof.
  assert (fst (searchFlightRoutes
                 (world_with (Date 2026 11 4) (Ok page_with_two_fares))
                 (py "北京") (py "上海") (py "2026-11-11"))
          = Ok (success
                  (SearchResult (py "北京") (py "上海") (py "2026-11-11")
                     (Some (py "北京")) (Some (py "北京")) 1
                     [fare 1 (py "¥500")]
                     (Some (PriceStats 500 500 500))
                     (Some [(unknown, 1%nat)])))) as H
    by (vm_compute; reflexivity).
  split; [exact H|].
  exact (proj1 (returned_flights_are_extracted_records _ _ _ _ _ H)).
Defined.

(** ** The rendered text *)

Lemma starts_with_app_l old s post :
  starts_with old s = true -> starts_with old (s ++ post) = true.
Proof.
  revert s. induction old as [|a old IH]; intros s; [done|].
  destruct s as [|b s]; [discriminate|]. cbn [starts_with app].
  intros [-> H]%andb_prop. by rewrite (IH _ H).
Qed.

Lemma starts_with_here old post : starts_with old (old ++ post) = true.
Proof.
  induction old as [|a old IH]; [done|]. cbn [starts_with app].
  by rewrite N.eqb_refl, IH.
Qed.

Lemma contains_here old post : contains old (old ++ post) = true.
Proof.
  destruct old as [|a old]; [by destruct post|].
  pose proof (starts_with_here (a :: old) post) as H.
  cbn [app] in *. cbn [contains]. by rewrite H.
Qed.

Lemma contains_refl old : contains old old = true.
Proof. rewrite <- (app_nil_r old) at 2. apply contains_here. Qed.

Lemma contains_skip old pre s :
  contains old s = true -> contains old (pre ++ s) = true.
Proof.
  intros H. induction pre as [|c pre IH]; [done|].
  cbn [contains app]. rewrite IH. apply orb_true_r.
Qed.

Lemma contains_app_l old s post :
  contains old s = true -> contains old (s ++ post) = true.
Proof.
  induction s as [|c s IH].
  - cbn [contains]. rewrite orb_false_r. destruct old; [|discriminate].
    intros _. by destruct post.
  - cbn [contains]. intros [H|H]%orb_prop.
    + apply (starts_with_app_l _ _ post) in H.
      cbn [app] in *. cbn [contains]. by rewrite H.
    + cbn [app contains]. rewrite (IH H). apply orb_true_r.
Qed.

Lemma contains_in_join v l lines :
  l ∈ lines -> contains v l = true -> contains v (join_newline lines) = true.
Proof.
  intros Hl Hv. induction lines as [|x lines IH].
  - by apply elem_of_nil in Hl.
  - destruct lines as [|y lines].
    + apply list_elem_of_singleton in Hl as ->. exact Hv.
    + change (join_newline (x :: y :: lines))
        with (x ++ 10 :: join_newline (y :: lines)).
      apply elem_of_cons in Hl as [->|Hl].
      * by apply contains_app_l.
      * apply contains_skip. change (10 :: ?s) with ([10] ++ s).
        apply contains_skip. by apply IH.
Qed.

Ltac find_in_line :=
  solve [ repeat first [ apply contains_here | apply contains_refl
                       | apply contains_skip ] ].

Lemma flight_lines_show i r v :
  v ∈ shown_fields r ->
  exists l, l ∈ flight_lines i r /\ contains v l = true.
Proof.
  unfold shown_fields, flight_lines. intros H.
  repeat (apply elem_of_cons in H as [->|H]); [..|by apply elem_of_nil in H].
  all: first
    [ eexists; split; [apply list_elem_of_here|find_in_line]
    | eexists; split;
        [apply list_elem_of_further, list_elem_of_here|find_in_line]
    | eexists; split;
        [do 2 apply list_elem_of_further; apply list_elem_of_here
        |find_in_line]
    | eexists; split;
        [do 3 apply list_elem_of_further; apply list_elem_of_here
        |find_in_line] ].
Qed.

Lemma format_route_result_ok w flights dep dst date :
  (flights = [] \/ cities_dict_imported w = true) ->
  exists text, _format_route_result w flights dep dst date = Ok text.
Proof.
  unfold _format_route_result. intros [->|H]; [by eexists|].
  destruct flights; [by eexists|]. rewrite H. by eexists.
Qed.

(** The rendered text of a result.  Rendering fails only when there is a
    flight to show and the city dictionary is missing; the rendering of a
    successful search never fails.  The text always shows the date; without
    flights it names the two cities as they were given; with flights it
    shows the names the dictionary gives for them and, for every flight,
    each of its nine fields (a missing one as the word for unknown, a
    missing terminal as nothing). *)
Theorem rendered_text_shows_every_field :
  forall w fl dep dst date,
    ((exists text, _format_route_result w fl dep dst date = Ok text)
     <-> fl = [] \/ cities_dict_imported w = true)
    /\ (forall res,
          fst (searchFlightRoutes w dep dst date) = Ok (success res) ->
          exists text,
            _format_route_result w (flights res) dep dst date
            = Ok text)
    /\ (forall text,
          _format_route_result w fl dep dst date = Ok text ->
          contains date text = true
          /\ (fl = [] ->
              contains dep text = true /\ contains dst text = true)
          /\ (fl <> [] ->
              contains (str_of_option (get_city_name w dep)) text = true
              /\ contains (str_of_option (get_city_name w dst)) text = true
              /\ contains (str_of_nat (length fl)) text = true)
          /\ (forall r v,
                r ∈ fl -> v ∈ shown_fields r ->
                contains v text = true)).
Proof.
  intros w fl dep dst date. split; [|split].
  - split; [|apply format_route_result_ok].
    unfold _format_route_result. destruct fl; [by left|].
    destruct (cities_dict_imported w); [by right|]. by intros [text Ht].
  - intros res Hres. apply format_route_result_ok. right.
    destruct (passes_validation w dep dst date) eqn:Hv.
    + unfold passes_validation in Hv.
      destruct (truthy dep), (truthy dst), (truthy date),
        (DRISSION_PAGE_AVAILABLE w), (cities_dict_imported w);
        simpl in Hv; done.
    + unfold searchFlightRoutes in Hres.
      destruct (rejected_search _ _ _ _ Hv) as (code & message & Hb & _).
      rewrite Hb in Hres. discriminate.
  - intros text. unfold _format_route_result.
    destruct fl as [|f fl].
    + intros <-%Ok_inj. split; [find_in_line|].
      split; [intros _; split; find_in_line|].
      split; [done|]. intros r v Hr. by apply elem_of_nil in Hr.
    + destruct (cities_dict_imported w); [|discriminate].
      intros <-%Ok_inj. split; [|split; [done|split]].
      * eapply contains_in_join; [|apply contains_skip, contains_refl].
        do 2 apply list_elem_of_further. apply list_elem_of_here.
      * intros _. split; [|split].
        -- eapply contains_in_join;
             [apply list_elem_of_further, list_elem_of_here|find_in_line].
        -- eapply contains_in_join;
             [apply list_elem_of_further, list_elem_of_here|find_in_line].
        -- eapply contains_in_join;
             [do 3 apply list_elem_of_further; apply list_elem_of_here
             |find_in_line].
      * intros r v Hr Hv.
        apply list_elem_of_lookup_1 in Hr as [k Hk].
        destruct (flight_lines_show (S k) r v Hv) as (l & Hl & Hc).
        apply (contains_in_join v l); [|exact Hc].
        apply elem_of_app. right. apply list_elem_of_join.
        exists (flight_lines (S k) r). split; [exact Hl|].
        by apply (elem_of_lookup_imap_2 (fun i flight => flight_lines (S i) flight)).
Qed.

Lemma rendered_text_shows_every_field_witness :
  _format_route_result (world_with (Date 2026 11 4) no_browser)
    [fare 1 (py "¥500")] (py "北京") (py "上海") (py "2026-11-11")
  = Ok (py "✈️ 航班查询结果
📍 北京 -> 北京
📅 2026-11-11
🔢 共找到 1 条航班

【1】未知 MU6863
    🛫 08:00 未知 
    🛬 未知 未知 
    💰 ¥500
")
  /\ contains (py "2026-11-11") (py "✈️ 航班查询结果
📍 北京 -> 北京
📅 2026-11-11
🔢 共找到 1 条航班

【1】未知 MU6863
    🛫 08:00 未知 
    🛬 未知 未知 
    💰 ¥500
") = true.
Proof.
  assert (_format_route_result (world_with (Date 2026 11 4) no_browser)
            [fare 1 (py "¥500")] (py "北京") (py "上海") (py "2026-11-11")
          = Ok (py "✈️ 航班查询结果
📍 北京 -> 北京
📅 2026-11-11
🔢 共找到 1 条航班

【1】未知 MU6863
    🛫 08:00 未知 
    🛬 未知 未知 
    💰 ¥500
")) as H by (vm_compute; reflexivity).
  split; [exact H|].
  exact (proj1 (proj2 (proj2
           (rendered_text_shows_every_field _ _ _ _ _)) _ H)).
Defined.

(** ** The next-day marker of the arrival time *)

Lemma marker_eq : py "+1天" = [43; 49; 22825].
Proof. reflexivity. Qed.

Lemma spaced_marker_eq : py " +1天" = [32; 43; 49; 22825].
Proof. reflexivity. Qed.

Lemma starts_with_prefix old s :
  starts_with old s = true -> exists rest, s = old ++ rest.
Proof.
  revert s. induction old as [|a old IH]; intros s; [by exists s|].
  destruct s as [|b s]; [discriminate|]. cbn [starts_with].
  intros [Hab H]%andb_prop. apply N.eqb_eq in Hab as ->.
  destruct (IH _ H) as [rest ->]. by exists rest.
Qed.

Lemma replace_miss old new c s :
  starts_with old (c :: s) = false ->
  replace old new (c :: s) = c :: replace old new s.
Proof. unfold replace. cbn [replace_from]. by intros ->. Qed.

Lemma replace_marker_hit new rest :
  replace [43; 49; 22825] new (43 :: 49 :: 22825 :: rest)
  = new ++ replace [43; 49; 22825] new rest.
Proof. reflexivity. Qed.

Lemma replace_spaced_marker_hit new rest :
  replace [32; 43; 49; 22825] new (32 :: 43 :: 49 :: 22825 :: rest)
  = new ++ replace [32; 43; 49; 22825] new rest.
Proof. reflexivity. Qed.

Lemma starts_with_cons_ne a old c s :
  a <> c -> starts_with (a :: old) (c :: s) = false.
Proof. intros H. cbn [starts_with]. by apply N.eqb_neq in H as ->. Qed.

Lemma starts_with_cons_eq a old s :
  starts_with (a :: old) (a :: s) = starts_with old s.
Proof. cbn [starts_with]. by rewrite N.eqb_refl. Qed.

(** What the replacement of the marker begins with. *)
Lemma replace_marker_head t :
  replace [43; 49; 22825] [32; 43; 49; 22825] t
  = match t with
    | [] => []
    | c :: t' =>
        if starts_with [43; 49; 22825] t
        then 32 :: 43 :: 49 :: 22825
               :: replace [43; 49; 22825] [32; 43; 49; 22825] (drop 3 t)
        else c :: replace [43; 49; 22825] [32; 43; 49; 22825] t'
    end.
Proof.
  destruct t as [|c t']; [done|].
  destruct (starts_with [43; 49; 22825] (c :: t')) eqn:Hs.
  - destruct (starts_with_prefix _ _ Hs) as [rest ->]. reflexivity.
  - by apply replace_miss.
Qed.

Lemma replaced_head_not_marker_char t a :
  a <> 32 ->
  (forall c t', t = c :: t' -> starts_with [43; 49; 22825] t = false -> c <> a) ->
  forall old, starts_with (a :: old)
                (replace [43; 49; 22825] [32; 43; 49; 22825] t) = false.
Proof.
  intros Ha Hc old. rewrite replace_marker_head.
  destruct t as [|c t']; [done|].
  destruct (starts_with [43; 49; 22825] (c :: t')) eqn:Hs.
  - by apply starts_with_cons_ne.
  - apply starts_with_cons_ne. intros ->. by apply (Hc c t').
Qed.

(** The replacement never begins with a marker: a marker of the text has
    got its space, and no marker arises from the characters copied. *)
Lemma replace_never_starts_with_marker t :
  starts_with [43; 49; 22825]
    (replace [43; 49; 22825] [32; 43; 49; 22825] t) = false.
Proof.
  rewrite replace_marker_head. destruct t as [|c t]; [done|].
  destruct (starts_with [43; 49; 22825] (c :: t)) eqn:Hs; [done|].
  destruct (N.eq_dec c 43) as [->|Hc]; [|by apply starts_with_cons_ne].
  rewrite starts_with_cons_eq. rewrite starts_with_cons_eq in Hs.
  rewrite replace_marker_head. destruct t as [|c t]; [done|].
  destruct (starts_with [43; 49; 22825] (c :: t)) eqn:Hs1; [done|].
  destruct (N.eq_dec c 49) as [->|Hc]; [|by apply starts_with_cons_ne].
  rewrite starts_with_cons_eq. rewrite starts_with_cons_eq in Hs.
  rewrite replace_marker_head. destruct t as [|c t]; [done|].
  destruct (starts_with [43; 49; 22825] (c :: t)) eqn:Hs2; [done|].
  destruct (N.eq_dec c 22825) as [->|Hc]; [|by apply starts_with_cons_ne].
  by rewrite starts_with_cons_eq in Hs.
Qed.

Lemma markers_set_off_cons after_space c s :
  markers_set_off after_space (c :: s)
  = (if starts_with [43; 49; 22825] (c :: s) then after_space else true)
    && markers_set_off (c =? 32) s.
Proof. reflexivity. Qed.

Lemma markers_set_off_replace n :
  forall t after_space,
    (length t <= n)%nat ->
    markers_set_off after_space
      (replace [43; 49; 22825] [32; 43; 49; 22825] t) = true.
Proof.
  induction n as [|n IH]; intros t after_space Hn.
  { destruct t; [done|simpl in Hn; lia]. }
  pose proof (replace_never_starts_with_marker t) as Hhead.
  rewrite replace_marker_head in *. destruct t as [|c t]; [done|].
  destruct (starts_with [43; 49; 22825] (c :: t)) eqn:Hs.
  - destruct (starts_with_prefix _ _ Hs) as [rest Heq].
    injection Heq as -> ->. clear Hhead.
    change (drop 3 (43 :: 49 :: 22825 :: rest)) with rest.
    assert (length rest <= n)%nat as Hr by (simpl in Hn; lia).
    pose proof (IH rest false Hr) as Hrest.
    generalize dependent (replace [43; 49; 22825] [32; 43; 49; 22825] rest).
    intros out Hrest.
    rewrite !markers_set_off_cons.
    rewrite (starts_with_cons_ne 43 _ 32) by done.
    rewrite (starts_with_cons_ne 43 _ 49) by done.
    rewrite (starts_with_cons_ne 43 _ 22825) by done.
    rewrite !starts_with_cons_eq.
    change (32 =? 32) with true. change (43 =? 32) with false.
    change (49 =? 32) with false. change (22825 =? 32) with false.
    cbn [starts_with andb]. exact Hrest.
  - rewrite markers_set_off_cons, Hhead. cbn [andb].
    apply IH. simpl in Hn. lia.
Qed.

Lemma unspace_replace n :
  forall t,
    (length t <= n)%nat ->
    replace [32; 43; 49; 22825] [43; 49; 22825]
      (replace [43; 49; 22825] [32; 43; 49; 22825] t) = t.
Proof.
  induction n as [|n IH]; intros t Hn.
  { destruct t; [done|simpl in Hn; lia]. }
  rewrite replace_marker_head. destruct t as [|c t]; [done|].
  destruct (starts_with [43; 49; 22825] (c :: t)) eqn:Hs.
  - destruct (starts_with_prefix _ _ Hs) as [rest Heq].
    injection Heq as -> ->.
    change (drop 3 (43 :: 49 :: 22825 :: rest)) with rest.
    rewrite replace_spaced_marker_hit, IH; [done|]. simpl in Hn. lia.
  - rewrite replace_miss.
    + rewrite IH; [done|]. simpl in Hn. lia.
    + destruct (N.eq_dec c 32) as [->|Hc];
        [|apply starts_with_cons_ne; congruence].
      rewrite starts_with_cons_eq. apply replace_never_starts_with_marker.
Qed.

Lemma replace_without_marker t :
  contains [43; 49; 22825] t = false ->
  replace [43; 49; 22825] [32; 43; 49; 22825] t = t.
Proof.
  induction t as [|c t IH]; [done|]. cbn [contains].
  intros [Hs Ht]%orb_false_elim. rewrite (replace_miss _ _ _ _ Hs).
  by rewrite (IH Ht).
Qed.

(** The arrival time: the test for the marker changes nothing, the
    normalised text is the text with a space put before every next-day
    marker.  So every marker of the normalised text comes right after a
    space, taking the spaces before the markers away gives the text back,
    and a text without marker is kept.  The extractor stores the stripped
    text of the element, normalised. *)
Theorem arrival_marker_is_set_off :
  forall t,
    normalize_arrival t = replace (py "+1天") (py " +1天") t
    /\ (contains (py "+1天") t = false -> normalize_arrival t = t)
    /\ markers_set_off false (normalize_arrival t) = true
    /\ replace (py " +1天") (py "+1天") (normalize_arrival t) = t
    /\ normalize_arrival (py "08:30+1天") = py "08:30 +1天"
    /\ (forall c e,
          arrive_box_time c = found e -> text e = Ok t ->
          extract_arrival_time c = Ok (Some (normalize_arrival (strip t)))).
Proof.
  intros t.
  assert (normalize_arrival t = replace (py "+1天") (py " +1天") t) as Heq.
  { unfold normalize_arrival. destruct (contains (py "+1天") t) eqn:Hc; [done|].
    rewrite marker_eq, spaced_marker_eq in *.
    by rewrite replace_without_marker. }
  split; [exact Heq|]. split.
  { unfold normalize_arrival. by intros ->. }
  rewrite Heq, marker_eq, spaced_marker_eq. split.
  { by apply (markers_set_off_replace (length t)). }
  split.
  { by apply (unspace_replace (length t)). }
  split.
  { by vm_compute. }
  intros c e Hc He. unfold extract_arrival_time, _safe_ele.
  rewrite Hc. cbn [try_except]. rewrite He. reflexivity.
Qed.

Lemma arrival_marker_is_set_off_witness :
  contains (py "+1天") (py "08:30") = false
  /\ normalize_arrival (py "08:30") = py "08:30".
Proof.
  assert (contains (py "+1天") (py "08:30") = false) as H
    by (vm_compute; reflexivity).
  split; [exact H|].
  exact (proj1 (proj2 (arrival_marker_is_set_off (py "08:30"))) H).
Defined.
